(** * GoFinance: the aggregation core of the report generators

    A shallow embedding of [llm/sector_analyzer.py] and
    [llm/stock_analyzer.py]: market-cap parsing, sector and category
    aggregation, ranking, and the ordering of sectors in a report.

    Python [float] is IEEE 754 binary64; it is modelled with the
    executable specification of binary floats of the standard library
    ([SpecFloat], precision 53, maximal exponent 1024), so every
    definition below computes.  Python [dict]s keep insertion order and are
    modelled as association lists.  Exceptions are values of an error
    type carrying the exception class name. *)

From Stdlib Require Import ZArith List String Ascii Bool Lia.
From Stdlib Require Import Permutation Sorted.
From Stdlib Require Import Floats.SpecFloat.
From Stdlib Require Import DecimalString.
Import ListNotations.

Local Open Scope string_scope.
Local Open Scope Z_scope.
Local Open Scope list_scope.

(** ** Exceptions and results *)

(** A raised exception: its class name and its argument. *)
Record exn := Raise { exn_class : string; exn_arg : string }.

Inductive result (A : Type) : Type :=
| Ok (a : A)
| Err (e : exn).
Arguments Ok {A} a.
Arguments Err {A} e.

Definition bind {A B} (r : result A) (k : A -> result B) : result B :=
  match r with
  | Ok a => k a
  | Err e => Err e
  end.

Notation "x <- r ;; k" := (bind r (fun x => k))
  (at level 61, r at next level, right associativity).

(** [try: body except: handler] with a bare [except], which catches every
    exception. *)
Definition try_except {A} (body : result A) (handler : A) : A :=
  match body with
  | Ok a => a
  | Err _ => handler
  end.

(** ** Python floats: IEEE 754 binary64 *)

Module PyFloat.

Definition prec : Z := 53.
Definition emax : Z := 1024.

Definition float := spec_float.

Definition nan : float := S754_nan.
Definition zero : float := S754_zero false.

Definition add : float -> float -> float := SFadd prec emax.
Definition sub : float -> float -> float := SFsub prec emax.
Definition mul : float -> float -> float := SFmul prec emax.
Definition div : float -> float -> float := SFdiv prec emax.
Definition sqrt : float -> float := SFsqrt prec emax.
Definition abs : float -> float := SFabs.

(** [x < y] and [x == y]; both are [False] as soon as one side is NaN. *)
Definition ltb : float -> float -> bool := SFltb.
Definition eqb : float -> float -> bool := SFeqb.

Definition isnan (x : float) : bool :=
  match x with
  | S754_nan => true
  | _ => false
  end.

(** [float(n)] for a Python [int] (round to nearest even). *)
Definition of_Z (n : Z) : float := binary_normalize prec emax n 0 false.

(** The binary64 value nearest to [(-1)^neg * m * 10^e], [m >= 0]: the
    value Python gives to a decimal numeral.  For [e < 0] the quotient
    [m / 10^(-e)] is rounded once, from the integer quotient and the
    position of the remainder. *)
Definition of_decimal (neg : bool) (m : Z) (e : Z) : float :=
  match m with
  | Z0 => S754_zero neg
  | Zneg _ => S754_nan
  | Zpos p =>
      match e with
      | Zneg k =>
          let '(q, e', l) :=
            SFdiv_core_binary prec emax (Zpos p) 0 (Z.pow_pos 10 k) 0 in
          binary_round_aux prec emax neg q e' l
      | _ => binary_round prec emax neg (Pos.mul p (Z.to_pos (10 ^ e))) 0
      end
  end.

End PyFloat.

Definition float : Type := PyFloat.float.

(** ** [float(str)]

    The grammar of the Python language reference:
<<
    floatvalue  ::= [sign] (floatnumber | infinity | nan)
    floatnumber ::= number [exponent]
    number      ::= [digitpart] "." digitpart | digitpart ["."]
    exponent    ::= ("e" | "E") [sign] digitpart
    digitpart   ::= digit (["_"] digit)*
>>
    surrounded by optional whitespace, with [inf], [infinity] and [nan] in
    any letter case.  Characters are bytes here: the digits and blanks of
    ASCII are recognised, every other character is an ordinary one. *)

Module FloatParse.

Definition is_digit (c : ascii) : bool :=
  let n := Z.of_N (N_of_ascii c) in (48 <=? n) && (n <=? 57).

Definition digit_val (c : ascii) : Z := Z.of_N (N_of_ascii c) - 48.

Definition is_space (c : ascii) : bool :=
  let n := Z.of_N (N_of_ascii c) in
  ((9 <=? n) && (n <=? 13)) || ((28 <=? n) && (n <=? 32)).

Definition lower (c : ascii) : ascii :=
  let n := N_of_ascii c in
  if ((65 <=? n) && (n <=? 90))%N then ascii_of_N (n + 32) else c.

Fixpoint lstrip (s : list ascii) : list ascii :=
  match s with
  | c :: s' => if is_space c then lstrip s' else s
  | [] => []
  end.

Definition strip (s : list ascii) : list ascii :=
  rev (lstrip (rev (lstrip s))).

(** The rest of a digitpart after its first digit.  The accumulator holds
    the value read so far and the number of digits read. *)
Fixpoint digits_more (s : list ascii) (acc : Z * Z) : (Z * Z) * list ascii :=
  let '(v, n) := acc in
  match s with
  | c :: s' =>
      if is_digit c then digits_more s' (10 * v + digit_val c, n + 1)
      else if Ascii.eqb c "_" then
        match s' with
        | d :: s'' =>
            if is_digit d then digits_more s'' (10 * v + digit_val d, n + 1)
            else (acc, s)
        | [] => (acc, s)
        end
      else (acc, s)
  | [] => (acc, [])
  end.

(** A digitpart continuing the value [acc]; [None] when [s] does not start
    with a digit. *)
Definition digitpart (s : list ascii) (acc : Z * Z)
  : option ((Z * Z) * list ascii) :=
  match s with
  | c :: s' =>
      if is_digit c
      then Some (digits_more s' (10 * fst acc + digit_val c, snd acc + 1))
      else None
  | [] => None
  end.

Definition sign (s : list ascii) : bool * list ascii :=
  match s with
  | c :: s' =>
      if Ascii.eqb c "-" then (true, s')
      else if Ascii.eqb c "+" then (false, s')
      else (false, s)
  | [] => (false, [])
  end.

(** [number]: the mantissa as an integer, the number of digits after the
    point, and the rest of the input. *)
Definition number (s : list ascii) : option (Z * Z * list ascii) :=
  match s with
  | c :: s' =>
      if Ascii.eqb c "." then
        match digitpart s' (0, 0) with
        | Some ((v, n), r) => Some (v, n, r)
        | None => None
        end
      else
        match digitpart s (0, 0) with
        | Some ((v, _), r) =>
            match r with
            | d :: r' =>
                if Ascii.eqb d "." then
                  match digitpart r' (v, 0) with
                  | Some ((v', n), r'') => Some (v', n, r'')
                  | None => Some (v, 0, r')
                  end
                else Some (v, 0, r)
            | [] => Some (v, 0, [])
            end
        | None => None
        end
  | [] => None
  end.

(** [exponent], when present; [Some (0, s)] when [s] does not start with
    an exponent marker, [None] when the marker is not followed by a
    digitpart. *)
Definition exponent (s : list ascii) : option (Z * list ascii) :=
  match s with
  | c :: s' =>
      if Ascii.eqb (lower c) "e" then
        let '(neg, s'') := sign s' in
        match digitpart s'' (0, 0) with
        | Some ((v, _), r) => Some (if neg then - v else v, r)
        | None => None
        end
      else Some (0, s)
  | [] => Some (0, [])
  end.

Definition floatnumber (neg : bool) (s : list ascii) : option float :=
  match number s with
  | Some (m, nfrac, r) =>
      match exponent r with
      | Some (e, []) => Some (PyFloat.of_decimal neg m (e - nfrac))
      | _ => None
      end
  | None => None
  end.

Definition floatvalue (s : list ascii) : option float :=
  let '(neg, s') := sign s in
  let w := string_of_list_ascii (map lower s') in
  if String.eqb w "inf" || String.eqb w "infinity"
  then Some (S754_infinity neg)
  else if String.eqb w "nan" then Some S754_nan
  else floatnumber neg s'.

(** [float(s)]: raises [ValueError] on a string that is not a float. *)
Definition float_of_string (s : string) : result float :=
  match floatvalue (strip (list_ascii_of_string s)) with
  | Some x => Ok x
  | None => Err (Raise "ValueError" "could not convert string to float")
  end.

End FloatParse.

(** ** Python values, dicts and [sorted] *)

(** A [dict] with string keys, in insertion order. *)
Definition dict (V : Type) : Type := list (string * V).

Module Dict.

(** [d.get(k)] *)
Fixpoint get {V} (d : dict V) (k : string) : option V :=
  match d with
  | [] => None
  | (k', v) :: d' => if String.eqb k k' then Some v else get d' k
  end.

(** [d.get(k, default)] *)
Definition get_default {V} (d : dict V) (k : string) (default : V) : V :=
  match get d k with
  | Some v => v
  | None => default
  end.

(** [d.items()] and [list(d)] *)
Definition items {V} (d : dict V) : list (string * V) := d.
Definition keys {V} (d : dict V) : list string := map fst d.

End Dict.

(** The values stored in the dicts the analyzers build: scalars, and lists
    of dicts of scalars. *)
Inductive scalar : Type :=
| VStr (s : string)
| VInt (n : Z)
| VFloat (x : float).

Inductive value : Type :=
| Scalar (v : scalar)
| Records (l : list (dict scalar)).

Module Py.

Section Sorting.
Context {A : Type}.
Variable key : A -> float.

(** [before reverse a b]: [a] has to come strictly before [b]:
    [key(a) < key(b)], or [key(b) < key(a)] under [reverse=True]. *)
Definition before (reverse : bool) (a b : A) : bool :=
  if reverse then PyFloat.ltb (key b) (key a)
  else PyFloat.ltb (key a) (key b).

Fixpoint insert (reverse : bool) (x : A) (l : list A) : list A :=
  match l with
  | [] => [x]
  | y :: l' =>
      if before reverse y x then y :: insert reverse x l'
      else x :: y :: l'
  end.

(** [sorted(l, key=key, reverse=reverse)].  The sort of Python is
    stable and compares keys with [<] only; with [reverse=True] too,
    elements with equal keys keep their original order.  It is written
    here as the stable insertion sort: on keys that [<] orders totally
    (no NaN) every stable sort returns this list. *)
Definition sorted (reverse : bool) (l : list A) : list A :=
  fold_right (insert reverse) [] l.

End Sorting.

(** [l[:n]] for [n >= 0]. *)
Definition slice_to {A} (n : Z) (l : list A) : list A :=
  firstn (Z.to_nat n) l.

(** [s[:-1]] and [s[-1]] on a string. *)
Definition drop_last (s : string) : string :=
  string_of_list_ascii (removelast (list_ascii_of_string s)).

Definition last_char (s : string) : result ascii :=
  match rev (list_ascii_of_string s) with
  | c :: _ => Ok c
  | [] => Err (Raise "IndexError" "string index out of range")
  end.

End Py.

(** ** The operations of pandas and numpy the analyzers call

    These belong to the libraries, not to the repository; they are written
    after the libraries' documented behaviour: reductions skip NaN
    ([skipna=True]), [std] is the sample standard deviation ([ddof=1]),
    [nlargest] and [nsmallest] keep the first of equal rows
    ([keep='first']) and put rows without a value last. *)

Module Pandas.

Record DataFrame (R : Type) : Type :=
  { columns : list string; rows : list R }.
Arguments columns {R} d.
Arguments rows {R} d.

(** [pd.DataFrame(records)] from a list of dicts with the keys [fields]:
    the frame of an empty list has no column at all. *)
Definition of_records {R} (fields : list string) (records : list R)
  : DataFrame R :=
  match records with
  | [] => {| columns := []; rows := [] |}
  | _ => {| columns := fields; rows := records |}
  end.

Definition has_column {R} (df : DataFrame R) (name : string) : bool :=
  existsb (String.eqb name) (columns df).

(** [df[name]], the column read through [proj]: [KeyError] when the frame
    has no such column. *)
Definition getitem {R T} (df : DataFrame R) (name : string) (proj : R -> T)
  : result (list T) :=
  if has_column df name then Ok (map proj (rows df))
  else Err (Raise "KeyError" name).

(** [df[name] = values] for a new column of as many values as rows. *)
Definition setitem {R T} (df : DataFrame R) (name : string)
  (values : list T) : DataFrame (R * T) :=
  {| columns := columns df ++ [name]; rows := combine (rows df) values |}.

(** Number of values that are not NaN, and the values with NaN replaced
    by zero, as the NaN-skipping reductions see them. *)
Definition count (xs : list float) : Z :=
  Z.of_nat (List.length (filter (fun x => negb (PyFloat.isnan x)) xs)).

Definition fillna0 (xs : list float) : list float :=
  map (fun x => if PyFloat.isnan x then PyFloat.zero else x) xs.

Definition fsum (xs : list float) : float :=
  fold_left PyFloat.add xs PyFloat.zero.

(** [Series.sum()] of a float column. *)
Definition sum (xs : list float) : float := fsum (fillna0 xs).

(** [Series.sum()] of an [int64] column wraps around. *)
Definition int64 (z : Z) : Z := (z + 2 ^ 63) mod 2 ^ 64 - 2 ^ 63.

Definition sum_int (xs : list Z) : Z :=
  fold_left (fun a x => int64 (a + x)) xs 0.

(** [Series.mean()]: NaN when no value is left. *)
Definition mean (xs : list float) : float :=
  let n := count xs in
  if n =? 0 then PyFloat.nan
  else PyFloat.div (sum xs) (PyFloat.of_Z n).

(** [Series.std()], from [nanops.nanvar]: with [count <= ddof] both the
    count and the divisor become NaN, and so does the result. *)
Definition var (ddof : Z) (xs : list float) : float :=
  let n := count xs in
  let cnt := if n <=? ddof then PyFloat.nan else PyFloat.of_Z n in
  let d := if n <=? ddof then PyFloat.nan else PyFloat.of_Z (n - ddof) in
  let avg := PyFloat.div (sum xs) cnt in
  let sqr :=
    map (fun x =>
           if PyFloat.isnan x then PyFloat.zero
           else let dev := PyFloat.sub avg x in PyFloat.mul dev dev) xs in
  PyFloat.div (fsum sqr) d.

Definition std (xs : list float) : float := PyFloat.sqrt (var 1 xs).

Section SelectN.
Context {R : Type}.
Variable key : R -> float.

Definition notna (r : R) : bool := negb (PyFloat.isnan (key r)).
Definition isna (r : R) : bool := PyFloat.isnan (key r).

(** The rows of [nlargest] ([largest = true]) and [nsmallest]: the rows
    with a value, stably sorted, then the rows without one, cut to [n]
    rows; nothing for [n <= 0]. *)
Definition select_n (largest : bool) (n : Z) (l : list R) : list R :=
  Py.slice_to n (Py.sorted key largest (filter notna l) ++ filter isna l).

Definition nlargest (n : Z) (key_name : string) (df : DataFrame R)
  : result (DataFrame R) :=
  if has_column df key_name
  then Ok {| columns := columns df; rows := select_n true n (rows df) |}
  else Err (Raise "KeyError" key_name).

Definition nsmallest (n : Z) (key_name : string) (df : DataFrame R)
  : result (DataFrame R) :=
  if has_column df key_name
  then Ok {| columns := columns df; rows := select_n false n (rows df) |}
  else Err (Raise "KeyError" key_name).
End SelectN.

(** [df[names].to_dict('records')], each row read through [proj]. *)
Definition to_records {R V} (df : DataFrame R) (names : list string)
  (proj : R -> dict V) : result (list (dict V)) :=
  match filter (fun c => negb (has_column df c)) names with
  | [] => Ok (map proj (rows df))
  | c :: _ => Err (Raise "KeyError" c)
  end.

End Pandas.

(** ** Python text: [str.title] and [format] *)

Module Text.

Definition nl : string := String (ascii_of_nat 10) EmptyString.

Definition is_upper (c : ascii) : bool :=
  let n := N_of_ascii c in ((65 <=? n) && (n <=? 90))%N.

Definition is_lower (c : ascii) : bool :=
  let n := N_of_ascii c in ((97 <=? n) && (n <=? 122))%N.

Definition to_upper (c : ascii) : ascii :=
  if is_lower c then ascii_of_N (N_of_ascii c - 32) else c.

Definition to_lower (c : ascii) : ascii :=
  if is_upper c then ascii_of_N (N_of_ascii c + 32) else c.

(** [s.title()] on ASCII text: a letter that follows a letter is put in
    lower case, any other letter in upper case. *)
Fixpoint title_from (previous_is_cased : bool) (s : string) : string :=
  match s with
  | EmptyString => EmptyString
  | String c s' =>
      String (if previous_is_cased then to_lower c else to_upper c)
        (title_from (is_upper c || is_lower c) s')
  end.

Definition title (s : string) : string := title_from false s.

(** [str(n)] for an [int]. *)
Definition str_int (n : Z) : string := NilZero.string_of_int (Z.to_int n).

(** A comma before every group of three digits, on the digits read from
    the right. *)
Fixpoint group3 (digits : list ascii) : list ascii :=
  match digits with
  | a :: b :: c :: rest =>
      match rest with
      | [] => [a; b; c]
      | _ => a :: b :: c :: ","%char :: group3 rest
      end
  | _ => digits
  end.

(** [format(n, ',')] for an [int]. *)
Definition format_comma (n : Z) : string :=
  let digits := list_ascii_of_string (str_int (Z.abs n)) in
  let sign := if n <? 0 then "-" else EmptyString in
  (sign ++ string_of_list_ascii (rev (group3 (rev digits))))%string.

(** [m * 2^e] in hundredths, rounded to the nearest integer, ties to the
    even one. *)
Definition hundredths (m : positive) (e : Z) : Z :=
  match e with
  | Zneg k =>
      let den := Z.pow_pos 2 k in
      let q := (Zpos m * 100) / den in
      let r := (Zpos m * 100) mod den in
      match 2 * r ?= den with
      | Lt => q
      | Eq => if Z.even q then q else q + 1
      | Gt => q + 1
      end
  | _ => Zpos m * 100 * 2 ^ e
  end.

(** [format(x, '.2f')] for a [float]: the decimal numeral with two digits
    after the point nearest to the value. *)
Definition format_2f (x : float) : string :=
  match x with
  | S754_nan => "nan"
  | S754_infinity s => if s then "-inf" else "inf"
  | S754_zero s => if s then "-0.00" else "0.00"
  | S754_finite s m e =>
      let q := hundredths m e in
      let cents := q mod 100 in
      let sign := if s then "-" else EmptyString in
      let pad := if cents <? 10 then "0" else EmptyString in
      (sign ++ str_int (q / 100) ++ "." ++ pad ++ str_int cents)%string
  end.

(** [needle in text] *)
Definition contains (needle text : string) : Prop :=
  exists before after, text = (before ++ needle ++ after)%string.

(** [d[key]] on a dict of scalars. *)
Definition item (d : dict scalar) (key : string) : result scalar :=
  match Dict.get d key with
  | Some v => Ok v
  | None => Err (Raise "KeyError" key)
  end.

(** [format(v, '.2f')]: an [int] is converted to [float] first, a [str]
    is refused. *)
Definition format_2f_scalar (v : scalar) : result string :=
  match v with
  | VFloat x => Ok (format_2f x)
  | VInt n =>
      match PyFloat.of_Z n with
      | S754_infinity _ =>
          Err (Raise "OverflowError" "int too large to convert to float")
      | x => Ok (format_2f x)
      end
  | VStr _ =>
      Err (Raise "ValueError"
             "Unknown format code 'f' for object of type 'str'")
  end.

Section FloatText.

(** [str(x)] and [format(x, ',')] for a float [x]: the shortest numeral
    that reads back as [x].  The analyzers store no float under the keys
    formatted this way; the two functions are left open. *)
Variable str_float : float -> string.
Variable comma_float : float -> string.

(** [str(v)] *)
Definition str (v : scalar) : string :=
  match v with
  | VStr s => s
  | VInt n => str_int n
  | VFloat x => str_float x
  end.

(** [format(v, ',')] *)
Definition format_comma_scalar (v : scalar) : result string :=
  match v with
  | VInt n => Ok (format_comma n)
  | VFloat x => Ok (comma_float x)
  | VStr _ => Err (Raise "ValueError" "Cannot specify ',' with 's'.")
  end.

End FloatText.

End Text.

(** ** [llm/sector_analyzer.py] *)

Module SectorData.
Record t : Type := Build
  { sector : string;
    performance : float;
    volume : Z;
    market_cap : float;
    top_performers : list (dict scalar);
    worst_performers : list (dict scalar);
    average_pe : float;
    volatility : float;
    timestamp : string }.
End SectorData.

Module SectorAnalyzer.

Module StockData.
Record t : Type := Build
  { symbol : string;
    name : string;
    price : float;
    change : float;
    change_percentage : float;
    volume : Z;
    market_cap : string;
    sector : string;
    pe_ratio : float;
    timestamp : string }.

(** The keys of [vars(stock)], in field order. *)
Definition fields : list string :=
  ["symbol"; "name"; "price"; "change"; "change_percentage"; "volume";
   "market_cap"; "sector"; "pe_ratio"; "timestamp"].
End StockData.

Definition SECTORS : list string :=
  ["technology"; "healthcare"; "financial";
   "consumer"; "industrial"; "energy";
   "materials"; "utilities"; "real_estate"].

(** The literal [{'T': 1e12, 'B': 1e9, 'M': 1e6}]. *)
Definition multipliers : dict float :=
  [("T", PyFloat.of_decimal false 1 12);
   ("B", PyFloat.of_decimal false 1 9);
   ("M", PyFloat.of_decimal false 1 6)].

(** The default [1] of [.get] is an [int]; [value * 1] multiplies by
    [float(1)]. *)
Definition _convert_market_cap (market_cap : string) : float :=
  try_except
    (value <- FloatParse.float_of_string (Py.drop_last market_cap) ;;
     c <- Py.last_char market_cap ;;
     let multiplier :=
       Dict.get_default multipliers (String c EmptyString) (PyFloat.of_Z 1) in
     Ok (PyFloat.mul value multiplier))
    PyFloat.zero.

(** A row of [df] once the column [market_cap_value] is set. *)
Definition Row : Type := (StockData.t * float)%type.

Definition row_change_percentage (r : Row) : float :=
  StockData.change_percentage (fst r).

(** One record of [df[['symbol', 'name', 'change_percentage',
    'volume']].to_dict('records')]. *)
Definition project (stock : StockData.t) : dict scalar :=
  [("symbol", VStr (StockData.symbol stock));
   ("name", VStr (StockData.name stock));
   ("change_percentage", VFloat (StockData.change_percentage stock));
   ("volume", VInt (StockData.volume stock))].

Definition projection (r : Row) : dict scalar := project (fst r).

Definition projected : list string :=
  ["symbol"; "name"; "change_percentage"; "volume"].

Definition _get_top_performers (df : Pandas.DataFrame Row) (n : Z)
  : result (list (dict scalar)) :=
  top <- Pandas.nlargest row_change_percentage n "change_percentage" df ;;
  Pandas.to_records top projected projection.

Definition _get_worst_performers (df : Pandas.DataFrame Row) (n : Z)
  : result (list (dict scalar)) :=
  worst <- Pandas.nsmallest row_change_percentage n "change_percentage" df ;;
  Pandas.to_records worst projected projection.

(** The frame [_analyze_sector] works on: the records, then the column
    [market_cap_value]. *)
Definition frame (stocks : list StockData.t)
  : result (Pandas.DataFrame Row) :=
  let df := Pandas.of_records StockData.fields stocks in
  caps <- Pandas.getitem df "market_cap" StockData.market_cap ;;
  Ok (Pandas.setitem df "market_cap_value" (map _convert_market_cap caps)).

(** [now] is the value of [datetime.now().isoformat()]. *)
Definition _analyze_sector (now : string) (sector_name : string)
  (stocks : list StockData.t) : result SectorData.t :=
  df <- frame stocks ;;
  change_pct <- Pandas.getitem df "change_percentage" row_change_percentage ;;
  vol <- Pandas.getitem df "volume" (fun r => StockData.volume (fst r)) ;;
  caps <- Pandas.getitem df "market_cap_value" snd ;;
  top <- _get_top_performers df 5 ;;
  worst <- _get_worst_performers df 5 ;;
  pe <- Pandas.getitem df "pe_ratio" (fun r => StockData.pe_ratio (fst r)) ;;
  change_pct' <- Pandas.getitem df "change_percentage" row_change_percentage ;;
  Ok {| SectorData.sector := sector_name;
        SectorData.performance := Pandas.mean change_pct;
        SectorData.volume := Pandas.sum_int vol;
        SectorData.market_cap := Pandas.sum caps;
        SectorData.top_performers := top;
        SectorData.worst_performers := worst;
        SectorData.average_pe := Pandas.mean pe;
        SectorData.volatility := Pandas.std change_pct';
        SectorData.timestamp := now |}.

(** [fetch_sector_data]: [fetch sector] is the decoded answer of the stock
    service for one sector; a sector whose fetch or analysis raises is
    skipped. *)
Definition fetch_sector_data (now : string)
  (fetch : string -> result (list StockData.t)) : dict SectorData.t :=
  fold_left
    (fun sector_data sector =>
       match stocks <- fetch sector ;; _analyze_sector now sector stocks with
       | Ok data => sector_data ++ [(sector, data)]
       | Err _ => sector_data
       end)
    SECTORS [].

(** The order in which [_prepare_analysis_content] and [send_email] list
    the sectors: [sorted(sector_data.items(),
    key=lambda x: x[1].performance, reverse=True)]. *)
Definition by_performance (x : string * SectorData.t) : float :=
  SectorData.performance (snd x).

Definition sorted_sectors (sector_data : dict SectorData.t)
  : list (string * SectorData.t) :=
  Py.sorted by_performance true (Dict.items sector_data).

(** *** The text sent to the model service *)

Section Prompt.

(** [str(x)] for a float [x], see [Text.str]. *)
Variable str_float : float -> string.

(** The line of one entry of [top_performers] or [worst_performers]. *)
Definition performer_line (stock : dict scalar) : result string :=
  symbol <- Text.item stock "symbol" ;;
  change <- Text.item stock "change_percentage" ;;
  text <- Text.format_2f_scalar change ;;
  Ok ("  - " ++ Text.str str_float symbol ++ ": " ++ text ++ "%"
      ++ Text.nl)%string.

(** [for stock in stocks: content += line] *)
Fixpoint performer_lines (content : string) (stocks : list (dict scalar))
  : result string :=
  match stocks with
  | [] => Ok content
  | stock :: rest =>
      line <- performer_line stock ;;
      performer_lines (content ++ line)%string rest
  end.

(** The body of the loop over the sorted sectors. *)
Definition sector_block (content : string) (x : string * SectorData.t)
  : result string :=
  let '(sector_name, data) := x in
  let content :=
    (content ++ Text.title sector_name ++ " Sector:" ++ Text.nl)%string in
  let content :=
    (content ++ "- Performance: "
     ++ Text.format_2f (SectorData.performance data) ++ "%"
     ++ Text.nl)%string in
  let content :=
    (content ++ "- Market Cap: $"
     ++ Text.format_2f
          (PyFloat.div (SectorData.market_cap data)
             (PyFloat.of_decimal false 1 12))
     ++ "T" ++ Text.nl)%string in
  let content :=
    (content ++ "- Volume: " ++ Text.format_comma (SectorData.volume data)
     ++ Text.nl)%string in
  let content :=
    (content ++ "- Volatility: "
     ++ Text.format_2f (SectorData.volatility data) ++ "%"
     ++ Text.nl)%string in
  let content :=
    (content ++ "- Average P/E: "
     ++ Text.format_2f (SectorData.average_pe data) ++ Text.nl)%string in
  let content := (content ++ Text.nl ++ "Top Performers:" ++ Text.nl)%string in
  content <- performer_lines content (SectorData.top_performers data) ;;
  let content :=
    (content ++ Text.nl ++ "Worst Performers:" ++ Text.nl)%string in
  content <- performer_lines content (SectorData.worst_performers data) ;;
  Ok (content ++ Text.nl)%string.

Fixpoint sector_blocks (content : string)
  (sectors : list (string * SectorData.t)) : result string :=
  match sectors with
  | [] => Ok content
  | x :: rest =>
      content <- sector_block content x ;;
      sector_blocks content rest
  end.

Definition header : string :=
  ("Sector Performance Summary:" ++ Text.nl ++ Text.nl)%string.

Definition _prepare_analysis_content (sector_data : dict SectorData.t)
  : result string :=
  sector_blocks header (sorted_sectors sector_data).

(** The f-string of the prompt around [analysis_content]. *)
Definition prompt_before : string :=
  "Please analyze the following sector performance data and provide a comprehensive market analysis:

        ".

Definition prompt_after : string :=
  "

        Please provide a detailed analysis covering:
        1. Overall sector performance and market trends
        2. Sector rotation and relative strength
        3. Notable sector-specific developments
        4. Risk analysis and sector volatility
        5. Market capitalization distribution
        6. Investment opportunities and risks
        7. Volume analysis and sector participation

        Analysis:".

(** [run prompt] is the stream of text the model service answers with. *)
Definition generate_sector_analysis (run : string -> list string)
  (sector_data : dict SectorData.t) : result string :=
  analysis_content <- _prepare_analysis_content sector_data ;;
  let prompt := (prompt_before ++ analysis_content ++ prompt_after)%string in
  Ok (String.concat EmptyString (run prompt)).

End Prompt.

End SectorAnalyzer.

(** ** [llm/stock_analyzer.py] *)

Module StockAnalyzer.

Module StockData.
Record t : Type := Build
  { symbol : string;
    name : string;
    price : float;
    change : float;
    change_percentage : float;
    volume : Z;
    market_cap : string;
    timestamp : string;
    category : string }.

Definition fields : list string :=
  ["symbol"; "name"; "price"; "change"; "change_percentage"; "volume";
   "market_cap"; "timestamp"; "category"].
End StockData.

(** One entry of [top_movers]. *)
Definition mover (stock : StockData.t) : dict scalar :=
  [("symbol", VStr (StockData.symbol stock));
   ("name", VStr (StockData.name stock));
   ("change_pct", VFloat (StockData.change_percentage stock));
   ("volume", VInt (StockData.volume stock))].

Definition abs_change (x : StockData.t) : float :=
  PyFloat.abs (StockData.change_percentage x).

Definition _prepare_category_data (stocks : list StockData.t)
  : result (dict value) :=
  match stocks with
  | [] => Ok [("count", Scalar (VInt 0))]
  | _ =>
      let df := Pandas.of_records StockData.fields stocks in
      change_pct <-
        Pandas.getitem df "change_percentage" StockData.change_percentage ;;
      vol <- Pandas.getitem df "volume" StockData.volume ;;
      Ok [("count", Scalar (VInt (Z.of_nat (List.length stocks))));
          ("avg_change_pct", Scalar (VFloat (Pandas.mean change_pct)));
          ("total_volume", Scalar (VInt (Pandas.sum_int vol)));
          ("top_movers",
            Records (map mover
                       (Py.slice_to 5 (Py.sorted abs_change true stocks))))]
  end.

(** The dict [analysis_data] of [analyze_market_trends]. *)
Definition analysis_data (stocks : dict (list StockData.t))
  : result (dict (dict value)) :=
  most_active <-
    _prepare_category_data (Dict.get_default stocks "most_active" []) ;;
  gainers <- _prepare_category_data (Dict.get_default stocks "gainers" []) ;;
  losers <- _prepare_category_data (Dict.get_default stocks "losers" []) ;;
  Ok [("most_active", most_active); ("gainers", gainers);
      ("losers", losers)].

(** The prompt is a fixed text: the f-string has no placeholder. *)
Definition _create_analysis_prompt (data : dict (dict value)) : string :=
  "Please analyze the current market conditions based on the following data:

        Provide a comprehensive market analysis focusing on:
        1. Overall market sentiment and major trends
        2. Notable sector movements and patterns
        3. Significant individual stock movements and their potential impact
        4. Volume analysis and market participation
        5. Potential market drivers and implications for investors

        Analysis:".

(** [run prompt] is the stream of text the model service answers with. *)
Definition analyze_market_trends (run : string -> list string)
  (stocks : dict (list StockData.t)) : result string :=
  data <- analysis_data stocks ;;
  let prompt := _create_analysis_prompt data in
  Ok (String.concat EmptyString (run prompt)).

(** *** The lines of the top movers *)

Section Movers.

(** [str(x)] and [format(x, ',')] for a float [x], see [Text.str]. *)
Variable str_float : float -> string.
Variable comma_float : float -> string.

Definition mover_line (m : dict scalar) : result string :=
  symbol <- Text.item m "symbol" ;;
  name <- Text.item m "name" ;;
  change <- Text.item m "change_pct" ;;
  change_text <- Text.format_2f_scalar change ;;
  volume <- Text.item m "volume" ;;
  volume_text <- Text.format_comma_scalar comma_float volume ;;
  Ok ("  - " ++ Text.str str_float symbol ++ " ("
      ++ Text.str str_float name ++ "): " ++ change_text
      ++ "% on volume of " ++ volume_text)%string.

(** The list comprehension: the lines of all movers, or the first
    error. *)
Fixpoint mover_lines (movers : list (dict scalar)) : result (list string) :=
  match movers with
  | [] => Ok []
  | m :: rest =>
      line <- mover_line m ;;
      lines <- mover_lines rest ;;
      Ok (line :: lines)
  end.

Definition _format_top_movers (movers : list (dict scalar)) : result string :=
  lines <- mover_lines movers ;;
  Ok (String.concat Text.nl lines).

End Movers.

End StockAnalyzer.

(** ** Vocabulary of the statements *)

Module Ranking.

Section Keyed.
Context {A : Type}.
Variable key : A -> float.

(** No key is NaN. *)
Definition all_notna (l : list A) : bool :=
  forallb (fun a => negb (PyFloat.isnan (key a))) l.


(** The elements whose key equals [k], in the order of [l]. *)
Definition tied (k : float) (l : list A) : list A :=
  filter (fun a => PyFloat.eqb (key a) k) l.

(** No element is followed, anywhere later, by one with a larger key
    ([descending]) or a smaller key ([ascending]). *)
Definition descending (l : list A) : Prop :=
  StronglySorted (fun a b => PyFloat.ltb (key a) (key b) = false) l.

Definition ascending (l : list A) : Prop :=
  StronglySorted (fun a b => PyFloat.ltb (key b) (key a) = false) l.

(** Under [sorted(..., reverse=reverse)]: the element on the right is
    never strictly before the one on the left. *)
Definition in_order (reverse : bool) (a b : A) : Prop :=
  Py.before key reverse b a = false.

(** [l'] holds the elements of [l] and keeps elements with equal keys
    in the order they have in [l]. *)
Definition stable (l' l : list A) : Prop :=
  forall k, tied k l' = tied k l.
End Keyed.


(** The [change_percentage] of a projected record, when it holds one. *)
Definition entry_change (field : string) (d : dict scalar) : float :=
  match Dict.get d field with
  | Some (VFloat x) => x
  | _ => PyFloat.nan
  end.

End Ranking.

(** ** Sample batches *)

Module Examples.

(** A sector record with the given symbol and change percentage. *)
Definition stock (symbol : string) (change_percentage : float)
  : SectorAnalyzer.StockData.t :=
  {| SectorAnalyzer.StockData.symbol := symbol;
     SectorAnalyzer.StockData.name := symbol;
     SectorAnalyzer.StockData.price := PyFloat.of_Z 100;
     SectorAnalyzer.StockData.change := PyFloat.of_Z 1;
     SectorAnalyzer.StockData.change_percentage := change_percentage;
     SectorAnalyzer.StockData.volume := 1000;
     SectorAnalyzer.StockData.market_cap := "1.5T";
     SectorAnalyzer.StockData.sector := "technology";
     SectorAnalyzer.StockData.pe_ratio := PyFloat.of_Z 20;
     SectorAnalyzer.StockData.timestamp := "2024-01-02T16:00:00" |}.

(** Six records with the change percentages 1.0 to 6.0. *)
Definition six_stocks : list SectorAnalyzer.StockData.t :=
  [stock "S1" (PyFloat.of_Z 1); stock "S2" (PyFloat.of_Z 2);
   stock "S3" (PyFloat.of_Z 3); stock "S4" (PyFloat.of_Z 4);
   stock "S5" (PyFloat.of_Z 5); stock "S6" (PyFloat.of_Z 6)].

(** Three records with the changes 2.0, -1.0 and 5.0. *)
Definition three_stocks : list SectorAnalyzer.StockData.t :=
  [stock "S1" (PyFloat.of_Z 2); stock "S2" (PyFloat.of_Z (-1));
   stock "S3" (PyFloat.of_Z 5)].

(** A record without a change percentage. *)
Definition nan_stock : SectorAnalyzer.StockData.t := stock "N1" PyFloat.nan.

(** A sector summary with the given performance. *)
Definition summary (sector : string) (performance : float) : SectorData.t :=
  {| SectorData.sector := sector;
     SectorData.performance := performance;
     SectorData.volume := 1000;
     SectorData.market_cap := PyFloat.of_decimal false 15 11;
     SectorData.top_performers := [];
     SectorData.worst_performers := [];
     SectorData.average_pe := PyFloat.of_Z 20;
     SectorData.volatility := PyFloat.of_Z 1;
     SectorData.timestamp := "2024-01-02T16:00:00" |}.


(** A category record with the given symbol and change percentage. *)
Definition mover_stock (symbol : string) (change_percentage : float)
  : StockAnalyzer.StockData.t :=
  {| StockAnalyzer.StockData.symbol := symbol;
     StockAnalyzer.StockData.name := symbol;
     StockAnalyzer.StockData.price := PyFloat.of_Z 100;
     StockAnalyzer.StockData.change := PyFloat.of_Z 1;
     StockAnalyzer.StockData.change_percentage := change_percentage;
     StockAnalyzer.StockData.volume := 1000;
     StockAnalyzer.StockData.market_cap := "1.5T";
     StockAnalyzer.StockData.timestamp := "2024-01-02T16:00:00";
     StockAnalyzer.StockData.category := "gainers" |}.

(** Changes of 2.0, -7.0, 2.0 and -3.0. *)
Definition movers : list StockAnalyzer.StockData.t :=
  [mover_stock "M1" (PyFloat.of_Z 2); mover_stock "M2" (PyFloat.of_Z (-7));
   mover_stock "M3" (PyFloat.of_Z 2); mover_stock "M4" (PyFloat.of_Z (-3))].

(** Changes of 1.0, NaN and 5.0. *)
Definition nan_movers : list StockAnalyzer.StockData.t :=
  [mover_stock "M1" (PyFloat.of_Z 1); mover_stock "M2" PyFloat.nan;
   mover_stock "M3" (PyFloat.of_Z 5)].

(** An input with one known category and one unknown one. *)
Definition overview : dict (list StockAnalyzer.StockData.t) :=
  [("gainers", movers); ("unusual_volume", movers)].

End Examples.

(** ** Exact totals *)

Module Stats.

(** The sum of integers, without wrap-around. *)
Definition total (xs : list Z) : Z := fold_right Z.add 0 xs.

(** No integer is negative. *)
Definition all_nonneg (xs : list Z) : bool := forallb (fun x => 0 <=? x) xs.

(** Both rankings of a summary are projections of records, as they are
    in every summary [_analyze_sector] builds. *)
Definition projected (data : SectorData.t) : Prop :=
  exists tops worsts,
    SectorData.top_performers data = map SectorAnalyzer.project tops
    /\ SectorData.worst_performers data
       = map SectorAnalyzer.project worsts.

End Stats.

(** * Properties *)

(** ** Order of binary64 values *)

Ltac float_order :=
  unfold PyFloat.ltb, PyFloat.eqb, PyFloat.isnan, SFltb, SFeqb, SFcompare;
  intros;
  repeat match goal with
         | x : float |- _ => destruct x as [[]|[]| |[] ? ?]
         end;
  try reflexivity; try discriminate; try assumption;
  change (Pos.compare_cont Eq) with Pos.compare in *;
  repeat match goal with
         | H : context [Z.compare ?a ?b] |- _ =>
             destruct (Z.compare_spec a b); try discriminate
         | |- context [Z.compare ?a ?b] =>
             destruct (Z.compare_spec a b); try reflexivity
         | H : context [Pos.compare ?a ?b] |- _ =>
             destruct (Pos.compare_spec a b); try discriminate
         | |- context [Pos.compare ?a ?b] =>
             destruct (Pos.compare_spec a b); try reflexivity
         end;
  simpl in *; try reflexivity; try discriminate; try lia.

Lemma ltb_asym (x y : float) :
  PyFloat.ltb x y = true -> PyFloat.ltb y x = false.
Proof. revert x y. float_order. Qed.


Lemma ltb_negtrans (x y z : float) :
  PyFloat.isnan y = false ->
  PyFloat.ltb x y = false -> PyFloat.ltb y z = false ->
  PyFloat.ltb x z = false.
Proof. revert x y z. float_order. Qed.


Lemma eqb_not_ltb (x y k : float) :
  PyFloat.eqb x k = true -> PyFloat.eqb y k = true -> PyFloat.ltb x y = false.
Proof. revert x y k. float_order. Qed.



Lemma isnan_abs (x : float) : PyFloat.isnan (PyFloat.abs x) = PyFloat.isnan x.
Proof. destruct x; reflexivity. Qed.

Lemma div_nan (x : float) : PyFloat.div x PyFloat.nan = PyFloat.nan.
Proof. destruct x; reflexivity. Qed.

(** ** [sorted]: permutation, order and stability *)

Section SortedFacts.
Context {A : Type}.
Variable key : A -> float.
Variable reverse : bool.

Local Abbreviation before := (Py.before key reverse).
Local Abbreviation insert := (Py.insert key reverse).
Local Abbreviation sorted := (Py.sorted key reverse).

Lemma before_asym a b : before a b = true -> before b a = false.
Proof. unfold Py.before; destruct reverse; apply ltb_asym. Qed.


Lemma before_negtrans a b c :
  PyFloat.isnan (key b) = false ->
  before a b = false -> before b c = false -> before a c = false.
Proof.
  unfold Py.before; destruct reverse; intros Hb H1 H2.
  - exact (ltb_negtrans _ _ _ Hb H2 H1).
  - exact (ltb_negtrans _ _ _ Hb H1 H2).
Qed.


Lemma before_tied a b k :
  PyFloat.eqb (key a) k = true -> PyFloat.eqb (key b) k = true ->
  before a b = false.
Proof.
  unfold Py.before; destruct reverse; intros Ha Hb;
    eapply eqb_not_ltb; eauto.
Qed.

Lemma insert_perm x l : Permutation (insert x l) (x :: l).
Proof.
  induction l as [|y l IH]; simpl; [reflexivity|].
  destruct (Py.before key reverse y x).
  - rewrite IH. apply perm_swap.
  - reflexivity.
Qed.

Lemma sorted_perm l : Permutation (sorted l) l.
Proof.
  induction l as [|x l IH]; simpl; [constructor|].
  etransitivity; [apply insert_perm|]. now constructor.
Qed.

Lemma sorted_in a l : In a (sorted l) <-> In a l.
Proof.
  split; apply Permutation_in;
    [apply sorted_perm | symmetry; apply sorted_perm].
Qed.

Lemma sorted_notna l :
  Ranking.all_notna key l = true -> Ranking.all_notna key (sorted l) = true.
Proof.
  unfold Ranking.all_notna. rewrite !forallb_forall.
  intros H a Ha. apply H. now apply sorted_in.
Qed.

Lemma insert_in_order x l :
  Ranking.all_notna key l = true ->
  StronglySorted (Ranking.in_order key reverse) l ->
  StronglySorted (Ranking.in_order key reverse) (insert x l).
Proof.
  induction l as [|y l IH]; simpl; intros Hn Hs.
  - repeat constructor.
  - apply andb_prop in Hn as [Hy Hn].
    apply negb_true_iff in Hy.
    apply StronglySorted_inv in Hs as [Hs Hall].
    destruct (Py.before key reverse y x) eqn:E.
    + constructor; [now apply IH|].
      eapply Permutation_Forall; [symmetry; apply insert_perm|].
      constructor; [|exact Hall].
      now apply before_asym.
    + constructor; [now constructor|].
      constructor; [exact E|].
      eapply Forall_impl; [|exact Hall].
      intros z Hz. unfold Ranking.in_order in *.
      now apply before_negtrans with y.
Qed.

Lemma sorted_in_order l :
  Ranking.all_notna key l = true -> StronglySorted (Ranking.in_order key reverse) (sorted l).
Proof.
  induction l as [|x l IH]; simpl; intros Hn; [constructor|].
  apply andb_prop in Hn as [_ Hn].
  apply insert_in_order; [now apply sorted_notna | now apply IH].
Qed.

(** Elements that are never strictly before one another keep their
    order. *)
Lemma insert_filter (p : A -> bool) x l :
  (forall a b, p a = true -> p b = true -> before a b = false) ->
  filter p (insert x l) = filter p (x :: l).
Proof.
  intros Hp. induction l as [|y l IH]; simpl; [reflexivity|].
  destruct (Py.before key reverse y x) eqn:E; [|reflexivity].
  simpl. rewrite IH. simpl.
  destruct (p y) eqn:Py, (p x) eqn:Px; try reflexivity.
  rewrite (Hp y x Py Px) in E. discriminate.
Qed.

Lemma sorted_filter (p : A -> bool) l :
  (forall a b, p a = true -> p b = true -> before a b = false) ->
  filter p (sorted l) = filter p l.
Proof.
  intros Hp. induction l as [|x l IH]; simpl; [reflexivity|].
  rewrite insert_filter by exact Hp.
  simpl. now rewrite IH.
Qed.

Lemma sorted_stable l : Ranking.stable key (sorted l) l.
Proof.
  intros k. unfold Ranking.tied. apply sorted_filter.
  intros a b Ha Hb. now apply before_tied with k.
Qed.



End SortedFacts.

(** ** Strictly ordered lists *)

Section StrictOrder.
Context {A : Type}.
Variable R : A -> A -> Prop.



Hypothesis R_asym : forall a b, R a b -> R b a -> False.


End StrictOrder.


(** ** Lists: filters, prefixes, projections *)










Lemma map_fst_combine_map {A B} (f : A -> B) (l : list A) :
  map fst (combine l (map f l)) = l.
Proof. induction l as [|a l IH]; simpl; congruence. Qed.

(** ** [nlargest] and [nsmallest] *)

Section SelectNFacts.
Context {R : Type}.
Variable key : R -> float.
Variable largest : bool.

Local Abbreviation valued := (filter (Pandas.notna key)).
Local Abbreviation missing := (filter (Pandas.isna key)).

Lemma forallb_firstn (p : R -> bool) (n : nat) (l : list R) :
  forallb p l = true -> forallb p (firstn n l) = true.
Proof.
  revert n. induction l as [|a l IH]; intros [|n]; simpl; auto.
  intros H. apply andb_prop in H as [-> Hl]. simpl. auto.
Qed.

Lemma forallb_filter (p : R -> bool) (l : list R) :
  forallb p (filter p l) = true.
Proof.
  induction l as [|a l IH]; simpl; [reflexivity|].
  destruct (p a) eqn:E; simpl; [now rewrite E|exact IH].
Qed.

Lemma valued_missing_length (l : list R) :
  (List.length (valued l) + List.length (missing l))%nat = List.length l.
Proof.
  unfold Pandas.notna, Pandas.isna.
  induction l as [|a l IH]; simpl; [reflexivity|].
  destruct (PyFloat.isnan (key a)); simpl; lia.
Qed.




(** Rows with a value come first, rows without one fill what is left. *)
Lemma select_n_split (n : Z) (l : list R) :
  exists some none,
    Pandas.select_n key largest n l = some ++ none
    /\ forallb (Pandas.notna key) some = true
    /\ forallb (Pandas.isna key) none = true
    /\ (n <= Z.of_nat (List.length (valued l)) -> none = [])
    /\ List.length (some ++ none) = Nat.min (Z.to_nat n) (List.length l).
Proof.
  unfold Pandas.select_n, Py.slice_to.
  set (S := Py.sorted key largest (valued l)).
  assert (HS : List.length S = List.length (valued l))
    by apply (Permutation_length (sorted_perm key largest (valued l))).
  exists (firstn (Z.to_nat n) S),
    (firstn (Z.to_nat n - List.length S) (missing l)).
  repeat split.
  - apply firstn_app.
  - apply forallb_firstn. apply forallb_forall. intros a Ha.
    apply (proj1 (sorted_in key largest a _)) in Ha.
    apply filter_In in Ha. tauto.
  - apply forallb_firstn, forallb_filter.
  - intros Hn. replace (Z.to_nat n - List.length S)%nat with 0%nat by lia.
    reflexivity.
  - rewrite <- firstn_app, length_firstn, length_app, HS.
    now rewrite valued_missing_length.
Qed.

End SelectNFacts.

(** ** [_analyze_sector] on a batch with a record *)

Section SectorFacts.
Import SectorAnalyzer.

(** The frame of a batch with a record has every column; its rows are the
    records with their parsed market caps. *)
Lemma frame_cons (s : StockData.t) (stocks : list StockData.t) :
  frame (s :: stocks)
  = Ok {| Pandas.columns := StockData.fields ++ ["market_cap_value"];
          Pandas.rows :=
            combine (s :: stocks)
              (map _convert_market_cap
                 (map StockData.market_cap (s :: stocks))) |}.
Proof. reflexivity. Qed.

Lemma frame_rows_fst (s : StockData.t) (stocks : list StockData.t) :
  map fst
    (combine (s :: stocks)
       (map _convert_market_cap (map StockData.market_cap (s :: stocks))))
  = s :: stocks.
Proof. rewrite map_map. apply map_fst_combine_map. Qed.

Lemma analyze_sector_cons (now sector_name : string) (s : StockData.t)
  (stocks : list StockData.t) :
  let rows :=
    combine (s :: stocks)
      (map _convert_market_cap (map StockData.market_cap (s :: stocks))) in
  _analyze_sector now sector_name (s :: stocks)
  = Ok {| SectorData.sector := sector_name;
          SectorData.performance :=
            Pandas.mean (map row_change_percentage rows);
          SectorData.volume :=
            Pandas.sum_int (map (fun r => StockData.volume (fst r)) rows);
          SectorData.market_cap := Pandas.sum (map snd rows);
          SectorData.top_performers :=
            map projection
              (Pandas.select_n row_change_percentage true 5 rows);
          SectorData.worst_performers :=
            map projection
              (Pandas.select_n row_change_percentage false 5 rows);
          SectorData.average_pe :=
            Pandas.mean (map (fun r => StockData.pe_ratio (fst r)) rows);
          SectorData.volatility :=
            Pandas.std (map row_change_percentage rows);
          SectorData.timestamp := now |}.
Proof. reflexivity. Qed.

End SectorFacts.

(** * The claims *)

Section MarketCap.
Import SectorAnalyzer.

(** C8.  [_convert_market_cap] gives 1.5e12 for 1.5T, 5e11 for 500B,
    2.5e8 for 250M, and 0.0 for a string that is no number and for the
    empty string. *)
Theorem convert_market_cap_examples :
  _convert_market_cap "1.5T" = PyFloat.of_decimal false 15 11
  /\ _convert_market_cap "500B" = PyFloat.of_decimal false 5 11
  /\ _convert_market_cap "250M" = PyFloat.of_decimal false 25 7
  /\ _convert_market_cap "garbage" = PyFloat.zero
  /\ _convert_market_cap EmptyString = PyFloat.zero.
Proof. repeat split; vm_compute; reflexivity. Qed.

(** C3.  On the plain numeral 1234 the last digit is cut off before the
    conversion: the result is 123.0 (times the default multiplier 1), not
    1234.0. *)
Theorem convert_market_cap_plain_numeral :
  _convert_market_cap "1234" = PyFloat.of_Z 123
  /\ _convert_market_cap "1234" <> PyFloat.of_Z 1234.
Proof.
  split; [vm_compute; reflexivity|].
  intros H. vm_compute in H. discriminate H.
Qed.

End MarketCap.

Section SectorAggregation.
Import SectorAnalyzer.

(** C1, as stated, fails: on the empty batch the error raised is a
    [KeyError], not an [EmptyBatchError]. *)
Lemma analyze_sector_empty_error_class :
  exists e,
    _analyze_sector "2024-01-02T16:00:00" "technology" [] = Err e
    /\ exn_class e = "KeyError"
    /\ exn_class e <> "EmptyBatchError".
Proof.
  eexists. split; [reflexivity|]. split; [reflexivity|]. discriminate.
Qed.

(** C1, amended.  For every empty batch [_analyze_sector] returns no
    summary: it fails with the [KeyError] of the column [market_cap], which
    the frame of an empty list does not have. *)
Theorem analyze_sector_empty (now sector_name : string) :
  _analyze_sector now sector_name [] = Err (Raise "KeyError" "market_cap").
Proof.
  unfold _analyze_sector, frame, Pandas.getitem.
  change (Pandas.of_records StockData.fields (@nil StockData.t))
    with {| Pandas.columns := []; Pandas.rows := @nil StockData.t |}.
  reflexivity.
Qed.

(** The caller's loop: a sector whose fetch or analysis raises is left
    out, the other sectors are summarised in the order of [SECTORS]. *)
Lemma fetch_sector_data_skips_errors (now : string)
  (fetch : string -> result (list StockData.t)) :
  fetch_sector_data now fetch
  = flat_map
      (fun sector =>
         match stocks <- fetch sector ;; _analyze_sector now sector stocks with
         | Ok data => [(sector, data)]
         | Err _ => []
         end)
      SECTORS.
Proof.
  unfold fetch_sector_data.
  assert (H : forall l acc,
             fold_left
               (fun sector_data sector =>
                  match
                    stocks <- fetch sector ;;
                    _analyze_sector now sector stocks
                  with
                  | Ok data => sector_data ++ [(sector, data)]
                  | Err _ => sector_data
                  end) l acc
             = acc ++ flat_map
                        (fun sector =>
                           match
                             stocks <- fetch sector ;;
                             _analyze_sector now sector stocks
                           with
                           | Ok data => [(sector, data)]
                           | Err _ => []
                           end) l).
  { induction l as [|sector l IH]; intros acc; simpl.
    - now rewrite app_nil_r.
    - rewrite IH.
      destruct (stocks <- fetch sector;; _analyze_sector now sector stocks).
      + now rewrite <- app_assoc.
      + reflexivity. }
  apply (H SECTORS []).
Qed.

(** C2, as stated, fails: the volatility of a batch of one record is NaN,
    which is not equal to zero. *)
Lemma single_record_volatility_not_zero :
  exists sd,
    _analyze_sector "2024-01-02T16:00:00" "technology"
      [Examples.stock "S1" (PyFloat.of_Z 2)] = Ok sd
    /\ PyFloat.isnan (SectorData.volatility sd) = true
    /\ PyFloat.eqb (SectorData.volatility sd) PyFloat.zero = false.
Proof. eexists. repeat split. Qed.

Lemma std_single (x : float) : Pandas.std [x] = PyFloat.nan.
Proof.
  unfold Pandas.std, Pandas.var.
  assert (E : (Pandas.count [x] <=? 1) = true).
  { unfold Pandas.count. simpl. destruct (PyFloat.isnan x); reflexivity. }
  rewrite E, div_nan. reflexivity.
Qed.

(** C2, amended.  For every batch of one record the summary is built and
    its volatility is NaN: the sample standard deviation of one value. *)
Theorem single_record_volatility (now sector_name : string)
  (s : StockData.t) :
  exists sd,
    _analyze_sector now sector_name [s] = Ok sd
    /\ SectorData.volatility sd = PyFloat.nan.
Proof.
  eexists. split; [apply analyze_sector_cons|].
  cbn [SectorData.volatility]. apply std_single.
Qed.

End SectorAggregation.

Section CategoryAggregation.
Import StockAnalyzer.

(** C5, as stated, fails: the summary of the empty list has no
    [top_movers], no [avg_change_pct] and no [total_volume] entry. *)
Lemma prepare_category_data_empty_has_no_top_movers :
  exists r,
    _prepare_category_data [] = Ok r
    /\ Dict.get r "top_movers" = None
    /\ Dict.get r "avg_change_pct" = None
    /\ Dict.get r "total_volume" = None.
Proof. eexists. repeat split. Qed.

(** C5, amended.  For the empty list [_prepare_category_data] raises
    nothing and returns the dict whose only key is [count], with the value
    0. *)
Theorem prepare_category_data_empty :
  exists r,
    _prepare_category_data [] = Ok r
    /\ Dict.keys r = ["count"]
    /\ Dict.get r "count" = Some (Scalar (VInt 0)).
Proof. eexists. repeat split. Qed.

Lemma prepare_category_data_total (stocks : list StockData.t) :
  exists r, _prepare_category_data stocks = Ok r.
Proof. destruct stocks; eexists; reflexivity. Qed.

Lemma get_default_missing {V} (d : dict V) (k : string) (default : V) :
  Dict.get d k = None -> Dict.get_default d k default = default.
Proof. unfold Dict.get_default. now intros ->. Qed.

(** C10.  [analysis_data] always is built; its keys are most_active,
    gainers and losers, in this order; each holds the summary of the list
    stored under that key, or of the empty list when the key is missing;
    no other key of the input is read. *)
Theorem analysis_data_categories (stocks : dict (list StockData.t)) :
  exists data,
    analysis_data stocks = Ok data
    /\ Dict.keys data = ["most_active"; "gainers"; "losers"]
    /\ (forall c summary,
          Dict.get data c = Some summary ->
          _prepare_category_data (Dict.get_default stocks c []) = Ok summary)
    /\ (forall c,
          In c (Dict.keys data) -> Dict.get stocks c = None ->
          Dict.get data c = Some [("count", Scalar (VInt 0))])
    /\ (forall stocks',
          (forall c, In c (Dict.keys data) ->
                     Dict.get stocks' c = Dict.get stocks c) ->
          analysis_data stocks' = Ok data).
Proof.
  unfold analysis_data.
  destruct (prepare_category_data_total
              (Dict.get_default stocks "most_active" [])) as [a Ha].
  destruct (prepare_category_data_total
              (Dict.get_default stocks "gainers" [])) as [g Hg].
  destruct (prepare_category_data_total
              (Dict.get_default stocks "losers" [])) as [l Hl].
  rewrite Ha, Hg, Hl. cbn [bind].
  eexists. split; [reflexivity|]. split; [reflexivity|].
  split; [|split].
  - intros c summary. cbn [Dict.get].
    destruct (String.eqb_spec c "most_active") as [->|_];
      [intros [= <-]; exact Ha|].
    destruct (String.eqb_spec c "gainers") as [->|_];
      [intros [= <-]; exact Hg|].
    destruct (String.eqb_spec c "losers") as [->|_];
      [intros [= <-]; exact Hl|discriminate].
  - intros c Hc Hnone.
    assert (E : forall k r,
               Dict.get stocks k = None ->
               _prepare_category_data (Dict.get_default stocks k []) = Ok r ->
               r = [("count", Scalar (VInt 0))]).
    { intros k r Hk. rewrite get_default_missing by exact Hk.
      now intros [= <-]. }
    cbn in Hc. destruct Hc as [<-|[<-|[<-|[]]]]; cbn [Dict.get String.eqb];
      cbn; f_equal; eapply E; eauto.
  - intros stocks' Hsame. cbn [Dict.keys map fst] in Hsame.
    unfold Dict.get_default.
    rewrite (Hsame "most_active"), (Hsame "gainers"), (Hsame "losers")
      by (cbn; tauto).
    fold (Dict.get_default stocks "most_active" (@nil StockData.t)).
    fold (Dict.get_default stocks "gainers" (@nil StockData.t)).
    fold (Dict.get_default stocks "losers" (@nil StockData.t)).
    now rewrite Ha, Hg, Hl.
Qed.

End CategoryAggregation.

Section ReportOrder.
Import SectorAnalyzer.




End ReportOrder.

Section TopMovers.
Import StockAnalyzer.

Lemma all_notna_abs_change (stocks : list StockData.t) :
  Ranking.all_notna abs_change stocks
  = Ranking.all_notna StockData.change_percentage stocks.
Proof.
  unfold Ranking.all_notna, abs_change.
  induction stocks as [|a l IH]; simpl; [reflexivity|].
  now rewrite isnan_abs, IH.
Qed.

(** C7, as stated, fails: with the changes 1.0, NaN and 5.0 no key is
    below NaN, the list is left as it is, and the record with the largest
    absolute change is listed last, after one with a smaller absolute
    change. *)
Lemma top_movers_with_nan_are_not_ranked :
  exists r entries,
    _prepare_category_data Examples.nan_movers = Ok r
    /\ Dict.get r "top_movers" = Some (Records entries)
    /\ map (fun d => Dict.get d "symbol") entries
       = [Some (VStr "M1"); Some (VStr "M2"); Some (VStr "M3")]
    /\ map (Ranking.entry_change "change_pct") entries
       = [PyFloat.of_Z 1; PyFloat.nan; PyFloat.of_Z 5]
    /\ PyFloat.ltb (PyFloat.abs (PyFloat.of_Z 1))
         (PyFloat.abs (PyFloat.of_Z 5)) = true.
Proof.
  eexists _, _. split; [reflexivity|]. split; [reflexivity|].
  split; [reflexivity|]. split; reflexivity.
Qed.

(** C7, amended.  For a non-empty list in which no change percentage is
    NaN, [top_movers] are the first five records of the list ranked by
    the absolute value of the change percentage downwards, records of
    equal absolute value in input order; each entry carries the change
    percentage of its record with its sign. *)
Theorem top_movers_ranked (stocks : list StockData.t) :
  stocks <> [] ->
  Ranking.all_notna StockData.change_percentage stocks = true ->
  exists ranked r,
    Permutation ranked stocks
    /\ Ranking.descending
         (fun x => PyFloat.abs (StockData.change_percentage x)) ranked
    /\ Ranking.stable
         (fun x => PyFloat.abs (StockData.change_percentage x)) ranked
         stocks
    /\ _prepare_category_data stocks = Ok r
    /\ Dict.get r "top_movers" = Some (Records (map mover (firstn 5 ranked)))
    /\ (forall s, Ranking.entry_change "change_pct" (mover s)
                  = StockData.change_percentage s).
Proof.
  intros Hne Hn. rewrite <- all_notna_abs_change in Hn.
  exists (Py.sorted abs_change true stocks).
  destruct stocks as [|s stocks]; [contradiction|].
  eexists. split; [apply sorted_perm|].
  split; [exact (sorted_in_order abs_change true _ Hn)|].
  split; [exact (sorted_stable abs_change true _)|].
  split; [reflexivity|].
  split; reflexivity.
Qed.

Lemma top_movers_ranked_witness :
  Examples.movers <> []
  /\ Ranking.all_notna StockData.change_percentage Examples.movers = true
  /\ exists ranked r,
       Permutation ranked Examples.movers
       /\ Ranking.descending
            (fun x => PyFloat.abs (StockData.change_percentage x)) ranked
       /\ Ranking.stable
            (fun x => PyFloat.abs (StockData.change_percentage x)) ranked
            Examples.movers
       /\ _prepare_category_data Examples.movers = Ok r
       /\ Dict.get r "top_movers"
          = Some (Records (map mover (firstn 5 ranked)))
       /\ (forall s, Ranking.entry_change "change_pct" (mover s)
                     = StockData.change_percentage s).
Proof.
  split; [discriminate|]. split; [reflexivity|].
  apply (top_movers_ranked Examples.movers); [discriminate|reflexivity].
Defined.

End TopMovers.

Section Rankings.
Import SectorAnalyzer.

Local Abbreviation entry := (Ranking.entry_change "change_percentage").

Lemma forallb_map {A B} (f : A -> B) (p : B -> bool) (l : list A) :
  forallb p (map f l) = forallb (fun a => p (f a)) l.
Proof. induction l as [|a l IH]; simpl; congruence. Qed.

Lemma filter_map_length {A B} (f : A -> B) (p : B -> bool) (l : list A) :
  List.length (filter p (map f l))
  = List.length (filter (fun a => p (f a)) l).
Proof.
  induction l as [|a l IH]; simpl; [reflexivity|].
  destruct (p (f a)); simpl; congruence.
Qed.






(** C9, as stated, fails: in a batch of one record without a change
    percentage, that record is the only entry of both rankings. *)
Lemma nan_record_is_ranked :
  exists sd,
    _analyze_sector "2024-01-02T16:00:00" "technology" [Examples.nan_stock]
    = Ok sd
    /\ SectorData.top_performers sd = [project Examples.nan_stock]
    /\ SectorData.worst_performers sd = [project Examples.nan_stock]
    /\ PyFloat.isnan (entry (project Examples.nan_stock)) = true.
Proof. eexists. repeat split. Qed.

(** C9, amended.  In both rankings of a non-empty batch the records with
    a change percentage come first and the records whose change percentage
    is NaN fill the places that are left: none when at least five records
    have a value; the ranking has five entries, or as many as the batch
    has records. *)
Theorem nan_records_ranked_last (now sector_name : string)
  (stocks : list StockData.t) :
  stocks <> [] ->
  exists sd,
    _analyze_sector now sector_name stocks = Ok sd
    /\ forall entries,
         entries = SectorData.top_performers sd
         \/ entries = SectorData.worst_performers sd ->
         exists valued missing,
           entries = valued ++ missing
           /\ forallb (fun d => negb (PyFloat.isnan (entry d))) valued = true
           /\ forallb (fun d => PyFloat.isnan (entry d)) missing = true
           /\ (5 <= Pandas.count (map StockData.change_percentage stocks) ->
               missing = [])
           /\ List.length entries = Nat.min 5 (List.length stocks).
Proof.
  intros Hne. destruct stocks as [|s stocks]; [contradiction|].
  eexists. split; [apply analyze_sector_cons|].
  set (rows := combine (s :: stocks)
                 (map _convert_market_cap
                    (map StockData.market_cap (s :: stocks)))).
  assert (Hrows : map fst rows = s :: stocks) by apply frame_rows_fst.
  cbn [SectorData.top_performers SectorData.worst_performers].
  assert (H : forall largest,
             exists valued missing,
               map projection
                 (Pandas.select_n row_change_percentage largest 5 rows)
               = valued ++ missing
               /\ forallb (fun d => negb (PyFloat.isnan (entry d))) valued
                  = true
               /\ forallb (fun d => PyFloat.isnan (entry d)) missing = true
               /\ (5 <= Pandas.count
                          (map StockData.change_percentage (s :: stocks)) ->
                   missing = [])
               /\ List.length
                    (map projection
                       (Pandas.select_n row_change_percentage largest 5 rows))
                  = Nat.min 5 (List.length (s :: stocks))).
  { intros largest.
    destruct (select_n_split row_change_percentage largest 5 rows)
      as (some & none & E & Hs & Hm & Hfull & Hlen).
    exists (map projection some), (map projection none).
    rewrite E, <- map_app, length_map, !forallb_map.
    split; [reflexivity|]. split; [exact Hs|]. split; [exact Hm|].
    split.
    - intros Hc. rewrite Hfull; [reflexivity|].
      unfold Pandas.count in Hc. rewrite <- Hrows, map_map in Hc.
      rewrite filter_map_length in Hc. exact Hc.
    - rewrite Hlen, <- Hrows, length_map. reflexivity. }
  intros entries [->| ->]; apply H.
Qed.

Lemma nan_records_ranked_last_witness :
  [Examples.nan_stock; Examples.stock "S1" (PyFloat.of_Z 2)] <> []
  /\ exists sd,
       _analyze_sector "2024-01-02T16:00:00" "technology"
         [Examples.nan_stock; Examples.stock "S1" (PyFloat.of_Z 2)] = Ok sd
       /\ forall entries,
            entries = SectorData.top_performers sd
            \/ entries = SectorData.worst_performers sd ->
            exists valued missing,
              entries = valued ++ missing
              /\ forallb (fun d => negb (PyFloat.isnan (entry d))) valued
                 = true
              /\ forallb (fun d => PyFloat.isnan (entry d)) missing = true
              /\ (5 <= Pandas.count
                         (map StockData.change_percentage
                            [Examples.nan_stock;
                             Examples.stock "S1" (PyFloat.of_Z 2)]) ->
                  missing = [])
              /\ List.length entries
                 = Nat.min 5
                     (List.length
                        [Examples.nan_stock;
                         Examples.stock "S1" (PyFloat.of_Z 2)]).
Proof.
  split; [discriminate|].
  apply (nan_records_ranked_last "2024-01-02T16:00:00" "technology").
  discriminate.
Defined.

End Rankings.

(** * Further properties of the analyzers *)

(** ** Slices of strings *)

Lemma list_ascii_of_string_append (a b : string) :
  list_ascii_of_string (String.append a b)
  = list_ascii_of_string a ++ list_ascii_of_string b.
Proof. induction a as [|c a IH]; simpl; [reflexivity|]. now rewrite IH. Qed.

Lemma drop_last_append (body : string) (c : ascii) :
  Py.drop_last (String.append body (String c EmptyString)) = body.
Proof.
  unfold Py.drop_last. rewrite list_ascii_of_string_append. simpl.
  rewrite removelast_last. apply string_of_list_ascii_of_string.
Qed.

Lemma last_char_append (body : string) (c : ascii) :
  Py.last_char (String.append body (String c EmptyString)) = Ok c.
Proof.
  unfold Py.last_char. rewrite list_ascii_of_string_append. simpl.
  now rewrite rev_unit.
Qed.

Section MarketCapFurther.
Import SectorAnalyzer.

(** X1.  A string of one character has no numeral before its last
    character: whatever the character, a suffix or a digit, the result
    is 0.0. *)
Theorem convert_market_cap_one_char (c : ascii) :
  _convert_market_cap (String c EmptyString) = PyFloat.zero.
Proof.
  unfold _convert_market_cap.
  change (String c EmptyString)
    with (String.append EmptyString (String c EmptyString)).
  rewrite drop_last_append. reflexivity.
Qed.

(** X2.  On a string with a last character, the result is decided by the
    text before it: when [float] rejects that text the result is 0.0
    whatever the last character; otherwise it is the value times the
    multiplier of the last character, which is 1 for every character
    other than T, B and M. *)
Theorem convert_market_cap_body_and_suffix (body : string) (c : ascii) :
  _convert_market_cap (String.append body (String c EmptyString))
  = match FloatParse.float_of_string body with
    | Ok value =>
        PyFloat.mul value
          (Dict.get_default multipliers (String c EmptyString)
             (PyFloat.of_Z 1))
    | Err _ => PyFloat.zero
    end
  /\ (c <> "T"%char -> c <> "B"%char -> c <> "M"%char ->
      Dict.get_default multipliers (String c EmptyString) (PyFloat.of_Z 1)
      = PyFloat.of_Z 1).
Proof.
  split.
  - unfold _convert_market_cap.
    rewrite drop_last_append, last_char_append.
    now destruct (FloatParse.float_of_string body).
  - intros HT HB HM. unfold Dict.get_default, multipliers. cbn [Dict.get].
    assert (E : forall d : ascii,
               c <> d -> String.eqb (String c EmptyString)
                           (String d EmptyString) = false).
    { intros d Hd. apply String.eqb_neq. intros [= H]. now apply Hd. }
    now rewrite (E _ HT), (E _ HB), (E _ HM).
Qed.

End MarketCapFurther.

(** ** Sums of [int64] columns *)

Lemma int64_add_l (a b : Z) :
  Pandas.int64 (Pandas.int64 a + b) = Pandas.int64 (a + b).
Proof.
  unfold Pandas.int64. f_equal.
  replace ((a + 2 ^ 63) mod 2 ^ 64 - 2 ^ 63 + b + 2 ^ 63)
    with ((a + 2 ^ 63) mod 2 ^ 64 + b) by lia.
  rewrite Zplus_mod_idemp_l. f_equal. lia.
Qed.

Lemma int64_in_range (z : Z) :
  - 2 ^ 63 <= z < 2 ^ 63 -> Pandas.int64 z = z.
Proof.
  intros H. unfold Pandas.int64. rewrite Z.mod_small; lia.
Qed.

(** Wrapping at every step is wrapping the exact total once. *)
Lemma sum_int_wraps_total (xs : list Z) :
  Pandas.sum_int xs = Pandas.int64 (Stats.total xs).
Proof.
  unfold Pandas.sum_int.
  assert (H : forall a,
             fold_left (fun a x => Pandas.int64 (a + x)) xs (Pandas.int64 a)
             = Pandas.int64 (a + Stats.total xs)).
  { induction xs as [|x xs IH]; intros a; simpl.
    - now rewrite Z.add_0_r.
    - rewrite int64_add_l, IH. f_equal. lia. }
  apply (H 0).
Qed.

Lemma total_nonneg (xs : list Z) :
  Stats.all_nonneg xs = true -> 0 <= Stats.total xs.
Proof.
  induction xs as [|x xs IH]; simpl; [lia|].
  intros H. apply andb_prop in H as [Hx Hxs].
  apply Z.leb_le in Hx. specialize (IH Hxs). lia.
Qed.

Lemma sum_int_exact (xs : list Z) :
  Stats.all_nonneg xs = true -> Stats.total xs < 2 ^ 63 ->
  Pandas.sum_int xs = Stats.total xs.
Proof.
  intros Hn Hs. rewrite sum_int_wraps_total. apply int64_in_range.
  pose proof (total_nonneg xs Hn). lia.
Qed.

(** ** Sorting and selecting through a projection *)

Lemma insert_map {A B} (f : A -> B) (key : B -> float) (reverse : bool)
  (x : A) (l : list A) :
  map f (Py.insert (fun a => key (f a)) reverse x l)
  = Py.insert key reverse (f x) (map f l).
Proof.
  induction l as [|y l IH]; simpl; [reflexivity|].
  unfold Py.before.
  destruct reverse;
    [destruct (PyFloat.ltb (key (f x)) (key (f y)))
    |destruct (PyFloat.ltb (key (f y)) (key (f x)))];
    simpl; now rewrite ?IH.
Qed.

Lemma sorted_map {A B} (f : A -> B) (key : B -> float) (reverse : bool)
  (l : list A) :
  map f (Py.sorted (fun a => key (f a)) reverse l)
  = Py.sorted key reverse (map f l).
Proof.
  induction l as [|x l IH]; simpl; [reflexivity|].
  unfold Py.sorted in *. now rewrite insert_map, IH.
Qed.

Lemma filter_map_commute {A B} (f : A -> B) (p : B -> bool) (l : list A) :
  map f (filter (fun a => p (f a)) l) = filter p (map f l).
Proof.
  induction l as [|x l IH]; simpl; [reflexivity|].
  destruct (p (f x)); simpl; now rewrite IH.
Qed.

Lemma select_n_map {A B} (f : A -> B) (key : B -> float) (largest : bool)
  (n : Z) (l : list A) :
  map f (Pandas.select_n (fun a => key (f a)) largest n l)
  = Pandas.select_n key largest n (map f l).
Proof.
  unfold Pandas.select_n, Py.slice_to.
  rewrite <- firstn_map, map_app, sorted_map.
  rewrite <- !filter_map_commute. reflexivity.
Qed.

(** ** A selection and what it leaves out *)

Section Selection.
Context {A : Type}.
Variable R : A -> A -> Prop.

Lemma StronglySorted_app (l1 l2 : list A) :
  StronglySorted R l1 -> StronglySorted R l2 ->
  (forall a b, In a l1 -> In b l2 -> R a b) ->
  StronglySorted R (l1 ++ l2).
Proof.
  induction l1 as [|x l1 IH]; simpl; intros H1 H2 H12; [exact H2|].
  apply StronglySorted_inv in H1 as [H1 Hx].
  constructor.
  - apply IH; auto.
  - apply Forall_app. split; [exact Hx|].
    apply Forall_forall. intros b Hb. apply H12; auto.
Qed.

Lemma StronglySorted_app_inv (l1 l2 : list A) :
  StronglySorted R (l1 ++ l2) ->
  StronglySorted R l1
  /\ (forall a b, In a l1 -> In b l2 -> R a b).
Proof.
  induction l1 as [|x l1 IH]; simpl; intros H.
  - split; [constructor|]. intros a b [].
  - apply StronglySorted_inv in H as [H Hx].
    destruct (IH H) as [H1 H12].
    apply Forall_app in Hx as [Hx1 Hx2].
    split; [now constructor|].
    intros a b [<-|Ha] Hb; [|now apply H12].
    rewrite Forall_forall in Hx2. now apply Hx2.
Qed.

End Selection.

Lemma filter_partition_perm {A} (p : A -> bool) (l : list A) :
  Permutation (filter p l ++ filter (fun a => negb (p a)) l) l.
Proof.
  induction l as [|x l IH]; simpl; [constructor|].
  destruct (p x); simpl.
  - now constructor.
  - rewrite <- Permutation_middle. now constructor.
Qed.

(** The rows of [nlargest] and [nsmallest] before the cut: a permutation
    of the batch in which no row is followed by one that ranks strictly
    before it.  A row without a value ranks before nothing. *)
Lemma ranked_rows {R} (key : R -> float) (largest : bool) (l : list R) :
  let ranked :=
    Py.sorted key largest (filter (Pandas.notna key) l)
    ++ filter (Pandas.isna key) l in
  Permutation ranked l
  /\ StronglySorted (Ranking.in_order key largest) ranked.
Proof.
  cbv zeta. split.
  - rewrite sorted_perm.
    rewrite (filter_ext (Pandas.isna key)
               (fun a => negb (Pandas.notna key a))).
    + apply filter_partition_perm.
    + intros a. unfold Pandas.notna, Pandas.isna.
      now rewrite negb_involutive.
  - apply StronglySorted_app.
    + apply sorted_in_order. apply forallb_filter.
    + assert (H : forall m,
                 forallb (Pandas.isna key) m = true ->
                 StronglySorted (Ranking.in_order key largest) m).
      { induction m as [|x m IH]; simpl; intros Hm; [constructor|].
        apply andb_prop in Hm as [Hx Hm].
        constructor; [now apply IH|].
        apply Forall_forall. intros b Hb.
        rewrite forallb_forall in Hm. specialize (Hm b Hb).
        unfold Ranking.in_order, Py.before, Pandas.isna in *.
        destruct largest, (key x), (key b); try discriminate; reflexivity. }
      apply H, forallb_filter.
    + intros a b Ha Hb. apply filter_In in Hb as [_ Hb].
      unfold Ranking.in_order, Py.before, Pandas.isna in *.
      destruct largest, (key b); try discriminate;
        destruct (key a); reflexivity.
Qed.

(** ** The sector summary in terms of the records *)

Section SectorFurther.
Import SectorAnalyzer.

Lemma map_snd_combine_map {A B} (f : A -> B) (l : list A) :
  map snd (combine l (map f l)) = map f l.
Proof. induction l as [|a l IH]; simpl; congruence. Qed.

Lemma map_through_fst {B} (g : StockData.t -> B) (rows : list Row) :
  map (fun r => g (fst r)) rows = map g (map fst rows).
Proof. symmetry. apply map_map. Qed.

Lemma select_n_rows (largest : bool) (n : Z) (rows : list Row) :
  map projection (Pandas.select_n row_change_percentage largest n rows)
  = map project
      (Pandas.select_n StockData.change_percentage largest n (map fst rows)).
Proof.
  unfold projection. rewrite map_through_fst. f_equal.
  apply (select_n_map fst StockData.change_percentage).
Qed.

(** Both rankings of the frame of a batch with a record, read off the
    records. *)
Lemma rankings_cons (s : StockData.t) (stocks : list StockData.t) (n : Z) :
  exists df,
    frame (s :: stocks) = Ok df
    /\ _get_top_performers df n
       = Ok (map project
               (Pandas.select_n StockData.change_percentage true n
                  (s :: stocks)))
    /\ _get_worst_performers df n
       = Ok (map project
               (Pandas.select_n StockData.change_percentage false n
                  (s :: stocks))).
Proof.
  rewrite frame_cons. eexists. split; [reflexivity|].
  pose proof (frame_rows_fst s stocks) as E.
  set (rows := combine (s :: stocks)
                 (map _convert_market_cap
                    (map StockData.market_cap (s :: stocks)))) in *.
  rewrite <- E, <- !select_n_rows. split; reflexivity.
Qed.

(** The summary of a batch with a record, read off the records. *)
Lemma analyze_sector_summary (now sector_name : string) (s : StockData.t)
  (stocks : list StockData.t) :
  let batch := s :: stocks in
  _analyze_sector now sector_name batch
  = Ok {| SectorData.sector := sector_name;
          SectorData.performance :=
            Pandas.mean (map StockData.change_percentage batch);
          SectorData.volume := Pandas.sum_int (map StockData.volume batch);
          SectorData.market_cap :=
            Pandas.sum
              (map _convert_market_cap (map StockData.market_cap batch));
          SectorData.top_performers :=
            map project
              (Pandas.select_n StockData.change_percentage true 5 batch);
          SectorData.worst_performers :=
            map project
              (Pandas.select_n StockData.change_percentage false 5 batch);
          SectorData.average_pe :=
            Pandas.mean (map StockData.pe_ratio batch);
          SectorData.volatility :=
            Pandas.std (map StockData.change_percentage batch);
          SectorData.timestamp := now |}.
Proof.
  cbv zeta. rewrite analyze_sector_cons. cbv zeta.
  pose proof (frame_rows_fst s stocks) as E.
  assert (Esnd :
           map snd
             (combine (s :: stocks)
                (map _convert_market_cap
                   (map StockData.market_cap (s :: stocks))))
           = map _convert_market_cap
               (map StockData.market_cap (s :: stocks))).
  { rewrite (map_map StockData.market_cap _convert_market_cap).
    apply map_snd_combine_map. }
  rewrite Esnd.
  set (rows := combine (s :: stocks)
                 (map _convert_market_cap
                    (map StockData.market_cap (s :: stocks)))) in *.
  rewrite !select_n_rows. unfold row_change_percentage.
  rewrite !map_through_fst, E. reflexivity.
Qed.

(** X3.  [_analyze_sector] returns a summary exactly for the batches with
    at least one record; the summary carries the sector name and the
    timestamp it was given. *)
Theorem analyze_sector_succeeds_iff_nonempty (now sector_name : string)
  (stocks : list StockData.t) :
  (exists sd,
     _analyze_sector now sector_name stocks = Ok sd
     /\ SectorData.sector sd = sector_name
     /\ SectorData.timestamp sd = now)
  <-> stocks <> [].
Proof.
  split.
  - intros (sd & H & _) ->. cbv in H. discriminate H.
  - intros Hne. destruct stocks as [|s stocks]; [contradiction|].
    eexists. split; [apply analyze_sector_summary|]. split; reflexivity.
Qed.

(** X4.  When no volume is negative and the volumes add up to less than
    2^63, the volume of the summary is their exact sum. *)
Theorem sector_volume_is_exact_sum (now sector_name : string)
  (stocks : list StockData.t) :
  stocks <> [] ->
  Stats.all_nonneg (map StockData.volume stocks) = true ->
  Stats.total (map StockData.volume stocks) < 2 ^ 63 ->
  exists sd,
    _analyze_sector now sector_name stocks = Ok sd
    /\ SectorData.volume sd = Stats.total (map StockData.volume stocks).
Proof.
  intros Hne Hn Hs. destruct stocks as [|s stocks]; [contradiction|].
  eexists. split; [apply analyze_sector_summary|].
  cbn [SectorData.volume]. now apply sum_int_exact.
Qed.

Lemma sector_volume_is_exact_sum_witness :
  Examples.three_stocks <> []
  /\ Stats.all_nonneg (map StockData.volume Examples.three_stocks) = true
  /\ Stats.total (map StockData.volume Examples.three_stocks) < 2 ^ 63
  /\ exists sd,
       _analyze_sector "2024-01-02T16:00:00" "technology"
         Examples.three_stocks = Ok sd
       /\ SectorData.volume sd
          = Stats.total (map StockData.volume Examples.three_stocks).
Proof.
  split; [discriminate|]. split; [reflexivity|]. split; [reflexivity|].
  apply (sector_volume_is_exact_sum "2024-01-02T16:00:00" "technology"
           Examples.three_stocks);
    [discriminate|reflexivity|reflexivity].
Defined.

Lemma std_needs_two_values (xs : list float) :
  Pandas.count xs <= 1 -> Pandas.std xs = PyFloat.nan.
Proof.
  intros H. unfold Pandas.std, Pandas.var.
  apply Z.leb_le in H. rewrite H, div_nan. reflexivity.
Qed.

Lemma mean_needs_a_value (xs : list float) :
  Pandas.count xs = 0 -> Pandas.mean xs = PyFloat.nan.
Proof. intros H. unfold Pandas.mean. now rewrite H. Qed.

(** X5.  Statistics without enough values are NaN, never an error: the
    volatility when at most one record has a change percentage, the
    performance when none has, the average P/E when no record has a P/E
    ratio. *)
Theorem sector_statistics_without_values (now sector_name : string)
  (stocks : list StockData.t) :
  stocks <> [] ->
  exists sd,
    _analyze_sector now sector_name stocks = Ok sd
    /\ (Pandas.count (map StockData.change_percentage stocks) <= 1 ->
        SectorData.volatility sd = PyFloat.nan)
    /\ (Pandas.count (map StockData.change_percentage stocks) = 0 ->
        SectorData.performance sd = PyFloat.nan)
    /\ (Pandas.count (map StockData.pe_ratio stocks) = 0 ->
        SectorData.average_pe sd = PyFloat.nan).
Proof.
  intros Hne. destruct stocks as [|s stocks]; [contradiction|].
  eexists. split; [apply analyze_sector_summary|].
  cbn [SectorData.volatility SectorData.performance SectorData.average_pe].
  split; [apply std_needs_two_values|].
  split; apply mean_needs_a_value.
Qed.

Lemma sector_statistics_without_values_witness :
  [Examples.nan_stock; Examples.stock "S1" (PyFloat.of_Z 2)] <> []
  /\ Pandas.count
       (map StockData.change_percentage
          [Examples.nan_stock; Examples.stock "S1" (PyFloat.of_Z 2)]) <= 1
  /\ exists sd,
       _analyze_sector "2024-01-02T16:00:00" "technology"
         [Examples.nan_stock; Examples.stock "S1" (PyFloat.of_Z 2)] = Ok sd
       /\ SectorData.volatility sd = PyFloat.nan.
Proof.
  split; [discriminate|]. split; [vm_compute; discriminate|].
  destruct (sector_statistics_without_values "2024-01-02T16:00:00"
              "technology"
              [Examples.nan_stock; Examples.stock "S1" (PyFloat.of_Z 2)])
    as (sd & Hsd & Hvol & _); [discriminate|].
  exists sd. split; [exact Hsd|]. apply Hvol. vm_compute. discriminate.
Defined.

End SectorFurther.

(** ** What the rankings select *)

Section RankingsFurther.
Import SectorAnalyzer.

(** The first [n] rows of a ranking and the rows it leaves out. *)
Lemma select_n_and_rest {R} (key : R -> float) (largest : bool) (n : Z)
  (l : list R) :
  exists rest,
    Permutation (Pandas.select_n key largest n l ++ rest) l
    /\ List.length (Pandas.select_n key largest n l)
       = Nat.min (Z.to_nat n) (List.length l)
    /\ StronglySorted (Ranking.in_order key largest)
         (Pandas.select_n key largest n l)
    /\ (forall a b,
          In a (Pandas.select_n key largest n l) -> In b rest ->
          Ranking.in_order key largest a b).
Proof.
  destruct (ranked_rows key largest l) as [Hperm Hsorted].
  unfold Pandas.select_n, Py.slice_to.
  set (ranked := Py.sorted key largest (filter (Pandas.notna key) l)
                 ++ filter (Pandas.isna key) l) in *.
  exists (skipn (Z.to_nat n) ranked).
  rewrite firstn_skipn. split; [exact Hperm|].
  split; [now rewrite length_firstn, (Permutation_length Hperm)|].
  rewrite <- (firstn_skipn (Z.to_nat n) ranked) in Hsorted.
  now apply StronglySorted_app_inv in Hsorted.
Qed.

(** X6.  [_get_top_performers] on the frame of a non-empty batch: the
    entries are the projections of [n] records of the batch, or of all
    records when there are fewer, or of none when [n <= 0]; they are
    listed with no entry above a smaller one, and no record left out has
    a larger change percentage than a record listed. *)
Theorem top_performers_are_the_largest (stocks : list StockData.t) (n : Z) :
  stocks <> [] ->
  exists df chosen rest,
    frame stocks = Ok df
    /\ _get_top_performers df n = Ok (map project chosen)
    /\ Permutation (chosen ++ rest) stocks
    /\ List.length chosen = Nat.min (Z.to_nat n) (List.length stocks)
    /\ Ranking.descending StockData.change_percentage chosen
    /\ (forall a b,
          In a chosen -> In b rest ->
          PyFloat.ltb (StockData.change_percentage a)
            (StockData.change_percentage b) = false).
Proof.
  intros Hne. destruct stocks as [|s stocks]; [contradiction|].
  destruct (rankings_cons s stocks n) as (df & Hdf & Htop & _).
  destruct (select_n_and_rest StockData.change_percentage true n
              (s :: stocks)) as (rest & Hp & Hl & Hs & Hd).
  exists df, (Pandas.select_n StockData.change_percentage true n
                (s :: stocks)), rest.
  repeat split; assumption.
Qed.

Lemma top_performers_are_the_largest_witness :
  Examples.six_stocks <> []
  /\ exists df chosen rest,
       frame Examples.six_stocks = Ok df
       /\ _get_top_performers df 5 = Ok (map project chosen)
       /\ Permutation (chosen ++ rest) Examples.six_stocks
       /\ List.length chosen
          = Nat.min (Z.to_nat 5) (List.length Examples.six_stocks)
       /\ Ranking.descending StockData.change_percentage chosen
       /\ (forall a b,
             In a chosen -> In b rest ->
             PyFloat.ltb (StockData.change_percentage a)
               (StockData.change_percentage b) = false).
Proof.
  split; [discriminate|].
  apply (top_performers_are_the_largest Examples.six_stocks 5).
  discriminate.
Defined.

(** X7.  [_get_worst_performers] on the frame of a non-empty batch: the
    entries are the projections of [n] records of the batch, or of all
    records when there are fewer, or of none when [n <= 0]; they are
    listed with no entry above a larger one, and no record left out has
    a smaller change percentage than a record listed. *)
Theorem worst_performers_are_the_smallest (stocks : list StockData.t)
  (n : Z) :
  stocks <> [] ->
  exists df chosen rest,
    frame stocks = Ok df
    /\ _get_worst_performers df n = Ok (map project chosen)
    /\ Permutation (chosen ++ rest) stocks
    /\ List.length chosen = Nat.min (Z.to_nat n) (List.length stocks)
    /\ Ranking.ascending StockData.change_percentage chosen
    /\ (forall a b,
          In a chosen -> In b rest ->
          PyFloat.ltb (StockData.change_percentage b)
            (StockData.change_percentage a) = false).
Proof.
  intros Hne. destruct stocks as [|s stocks]; [contradiction|].
  destruct (rankings_cons s stocks n) as (df & Hdf & _ & Hworst).
  destruct (select_n_and_rest StockData.change_percentage false n
              (s :: stocks)) as (rest & Hp & Hl & Hs & Hd).
  exists df, (Pandas.select_n StockData.change_percentage false n
                (s :: stocks)), rest.
  repeat split; assumption.
Qed.

Lemma worst_performers_are_the_smallest_witness :
  Examples.six_stocks <> []
  /\ exists df chosen rest,
       frame Examples.six_stocks = Ok df
       /\ _get_worst_performers df 5 = Ok (map project chosen)
       /\ Permutation (chosen ++ rest) Examples.six_stocks
       /\ List.length chosen
          = Nat.min (Z.to_nat 5) (List.length Examples.six_stocks)
       /\ Ranking.ascending StockData.change_percentage chosen
       /\ (forall a b,
             In a chosen -> In b rest ->
             PyFloat.ltb (StockData.change_percentage b)
               (StockData.change_percentage a) = false).
Proof.
  split; [discriminate|].
  apply (worst_performers_are_the_smallest Examples.six_stocks 5).
  discriminate.
Defined.

End RankingsFurther.

(** ** The sectors that reach the report *)

Section FetchFurther.
Import SectorAnalyzer.

Lemma get_collected {V} (G : string -> result V) (l : list string)
  (k : string) :
  Dict.get
    (flat_map
       (fun s => match G s with Ok v => [(s, v)] | Err _ => [] end) l) k
  = if existsb (String.eqb k) l
    then match G k with Ok v => Some v | Err _ => None end
    else None.
Proof.
  induction l as [|s l IH]; simpl; [reflexivity|].
  destruct (String.eqb_spec k s) as [->|Hks]; simpl.
  - destruct (G s) as [v|e]; simpl.
    + now rewrite String.eqb_refl.
    + rewrite IH. now destruct (existsb (String.eqb s) l).
  - destruct (G s) as [v|e]; simpl.
    + apply String.eqb_neq in Hks. now rewrite Hks.
    + exact IH.
Qed.

Lemma keys_collected {V} (G : string -> result V) (l : list string) :
  Dict.keys
    (flat_map
       (fun s => match G s with Ok v => [(s, v)] | Err _ => [] end) l)
  = filter (fun s => match G s with Ok _ => true | Err _ => false end) l.
Proof.
  unfold Dict.keys. induction l as [|s l IH]; simpl; [reflexivity|].
  rewrite map_app, IH. now destruct (G s).
Qed.

Lemma existsb_eqb_In (k : string) (l : list string) :
  existsb (String.eqb k) l = true <-> In k l.
Proof.
  rewrite existsb_exists. split.
  - intros (x & Hx & E). apply String.eqb_eq in E. now subst.
  - intros H. exists k. split; [exact H|apply String.eqb_refl].
Qed.

(** X8.  What [fetch_sector_data] holds for a sector: the summary of the
    fetched batch when the sector is one of [SECTORS], its fetch succeeds
    and the batch has a record; nothing when the fetch raises, when the
    batch is empty, or when the sector is not one of [SECTORS].  A sector
    that fails takes no other sector with it. *)
Theorem fetch_sector_data_lookup (now : string)
  (fetch : string -> result (list StockData.t)) (sector : string) :
  (forall stocks,
     In sector SECTORS -> fetch sector = Ok stocks -> stocks <> [] ->
     exists sd,
       Dict.get (fetch_sector_data now fetch) sector = Some sd
       /\ _analyze_sector now sector stocks = Ok sd)
  /\ ((exists e, fetch sector = Err e) \/ fetch sector = Ok []
      \/ ~ In sector SECTORS ->
      Dict.get (fetch_sector_data now fetch) sector = None).
Proof.
  rewrite fetch_sector_data_skips_errors.
  rewrite (get_collected
             (fun s => stocks <- fetch s ;; _analyze_sector now s stocks)).
  split.
  - intros stocks Hin Hf Hne.
    apply existsb_eqb_In in Hin. rewrite Hin, Hf. cbn [bind].
    destruct stocks as [|s stocks]; [contradiction|].
    rewrite analyze_sector_summary. eexists. split; reflexivity.
  - intros [[e He]|[He|Hn]].
    + rewrite He. now destruct (existsb (String.eqb sector) SECTORS).
    + rewrite He. now destruct (existsb (String.eqb sector) SECTORS).
    + destruct (existsb (String.eqb sector) SECTORS) eqn:E;
        [|reflexivity].
      apply existsb_eqb_In in E. contradiction.
Qed.

(** X9.  The keys of [fetch_sector_data] are the sectors of [SECTORS]
    whose fetch returned at least one record, in the order of [SECTORS]:
    so at most nine, and none twice. *)
Theorem fetch_sector_data_keys (now : string)
  (fetch : string -> result (list StockData.t)) :
  Dict.keys (fetch_sector_data now fetch)
  = filter
      (fun sector =>
         match fetch sector with
         | Ok (_ :: _) => true
         | _ => false
         end)
      SECTORS
  /\ NoDup (Dict.keys (fetch_sector_data now fetch))
  /\ (List.length (Dict.keys (fetch_sector_data now fetch)) <= 9)%nat.
Proof.
  rewrite fetch_sector_data_skips_errors.
  rewrite (keys_collected
             (fun s => stocks <- fetch s ;; _analyze_sector now s stocks)).
  assert (E : forall sector,
             match stocks <- fetch sector ;;
                   _analyze_sector now sector stocks with
             | Ok _ => true
             | Err _ => false
             end
             = match fetch sector with
               | Ok (_ :: _) => true
               | _ => false
               end).
  { intros sector. destruct (fetch sector) as [[|s stocks]|e];
      cbn [bind]; [reflexivity| |reflexivity].
    now rewrite analyze_sector_summary. }
  rewrite (filter_ext _ _ E).
  split; [reflexivity|]. split.
  - apply NoDup_filter. unfold SECTORS.
    repeat (constructor; [cbn; intuition discriminate|]). constructor.
  - etransitivity; [apply filter_length_le|]. reflexivity.
Qed.

End FetchFurther.

(** ** The category summaries *)

Section CategoryFurther.
Import StockAnalyzer.

Lemma prepare_category_data_cons (s : StockData.t)
  (stocks : list StockData.t) :
  let batch := s :: stocks in
  _prepare_category_data batch
  = Ok [("count", Scalar (VInt (Z.of_nat (List.length batch))));
        ("avg_change_pct",
          Scalar (VFloat (Pandas.mean
                            (map StockData.change_percentage batch))));
        ("total_volume",
          Scalar (VInt (Pandas.sum_int (map StockData.volume batch))));
        ("top_movers",
          Records (map mover
                     (Py.slice_to 5 (Py.sorted abs_change true batch))))].
Proof. reflexivity. Qed.

(** X10.  [_prepare_category_data] never raises.  Its [count] is the
    number of records; a summary of at least one record has the keys
    count, avg_change_pct, total_volume and top_movers, in this order;
    [top_movers] is missing exactly when the list is empty. *)
Theorem category_summary_shape (stocks : list StockData.t) :
  exists r,
    _prepare_category_data stocks = Ok r
    /\ Dict.get r "count"
       = Some (Scalar (VInt (Z.of_nat (List.length stocks))))
    /\ (stocks <> [] ->
        Dict.keys r
        = ["count"; "avg_change_pct"; "total_volume"; "top_movers"])
    /\ (Dict.get r "top_movers" = None <-> stocks = []).
Proof.
  destruct stocks as [|s stocks].
  - eexists. split; [reflexivity|]. split; [reflexivity|].
    split; [intros H; contradiction|]. split; reflexivity.
  - eexists. split; [apply prepare_category_data_cons|].
    split; [reflexivity|]. split; [reflexivity|].
    split; intros H; discriminate H.
Qed.

(** X11.  When no volume is negative and the volumes add up to less than
    2^63, [total_volume] is their exact sum. *)
Theorem category_total_volume_is_exact_sum (stocks : list StockData.t) :
  stocks <> [] ->
  Stats.all_nonneg (map StockData.volume stocks) = true ->
  Stats.total (map StockData.volume stocks) < 2 ^ 63 ->
  exists r,
    _prepare_category_data stocks = Ok r
    /\ Dict.get r "total_volume"
       = Some (Scalar (VInt (Stats.total (map StockData.volume stocks)))).
Proof.
  intros Hne Hn Hs. destruct stocks as [|s stocks]; [contradiction|].
  eexists. split; [apply prepare_category_data_cons|].
  rewrite <- (sum_int_exact _ Hn Hs). reflexivity.
Qed.

Lemma category_total_volume_is_exact_sum_witness :
  Examples.movers <> []
  /\ Stats.all_nonneg (map StockData.volume Examples.movers) = true
  /\ Stats.total (map StockData.volume Examples.movers) < 2 ^ 63
  /\ exists r,
       _prepare_category_data Examples.movers = Ok r
       /\ Dict.get r "total_volume"
          = Some (Scalar
                    (VInt (Stats.total
                             (map StockData.volume Examples.movers)))).
Proof.
  split; [discriminate|]. split; [reflexivity|]. split; [reflexivity|].
  apply (category_total_volume_is_exact_sum Examples.movers);
    [discriminate|reflexivity|reflexivity].
Defined.



(** X13.  [analyze_market_trends] raises nothing of its own and sends
    the model service one and the same prompt whatever the stocks are: no
    figure of [analysis_data] reaches the prompt, and the result is the
    joined answer [run] gives to that prompt. *)
Theorem analyze_market_trends_prompt_is_fixed :
  exists prompt,
    forall (run : string -> list string)
           (stocks : dict (list StockData.t)),
      analyze_market_trends run stocks
      = Ok (String.concat EmptyString (run prompt)).
Proof.
  exists (_create_analysis_prompt []). intros run stocks.
  unfold analyze_market_trends, analysis_data.
  destruct (prepare_category_data_total
              (Dict.get_default stocks "most_active" [])) as [a ->].
  destruct (prepare_category_data_total
              (Dict.get_default stocks "gainers" [])) as [g ->].
  destruct (prepare_category_data_total
              (Dict.get_default stocks "losers" [])) as [l ->].
  reflexivity.
Qed.

End CategoryFurther.

(** ** The text of the sector report *)

Lemma append_assoc (a b c : string) :
  ((a ++ b) ++ c)%string = (a ++ b ++ c)%string.
Proof. induction a as [|x a IH]; simpl; [reflexivity|]. now rewrite IH. Qed.

Lemma append_empty_r (a : string) : (a ++ EmptyString)%string = a.
Proof. induction a as [|x a IH]; simpl; [reflexivity|]. now rewrite IH. Qed.

Lemma append_inv_l (a b c : string) :
  (a ++ b)%string = (a ++ c)%string -> b = c.
Proof. induction a as [|x a IH]; simpl; [auto|]. intros [= H]. auto. Qed.

Lemma contains_skip (needle a text : string) :
  Text.contains needle text -> Text.contains needle (a ++ text)%string.
Proof.
  intros (before & after & ->). exists (a ++ before)%string, after.
  now rewrite append_assoc.
Qed.

Lemma contains_here (a b c d rest : string) :
  Text.contains ((a ++ b ++ c) ++ d)%string (a ++ b ++ c ++ d ++ rest)%string.
Proof.
  exists EmptyString, rest. cbn [append].
  now rewrite !append_assoc.
Qed.

Section ReportText.
Import SectorAnalyzer.
Variable str_float : float -> string.

Lemma performer_lines_project (content : string)
  (stocks : list StockData.t) :
  exists text,
    performer_lines str_float content (map project stocks)
    = Ok (content ++ text)%string.
Proof.
  revert content. induction stocks as [|s stocks IH]; intros content.
  - exists EmptyString. simpl. now rewrite append_empty_r.
  - cbn [map performer_lines].
    change (performer_line str_float (project s))
      with (@Ok string
              ("  - " ++ StockData.symbol s ++ ": "
               ++ Text.format_2f (StockData.change_percentage s) ++ "%"
               ++ Text.nl)%string).
    cbn [bind]. destruct (IH (content
                               ++ ("  - " ++ StockData.symbol s ++ ": "
                                   ++ Text.format_2f
                                        (StockData.change_percentage s)
                                   ++ "%" ++ Text.nl))%string)
      as [text ->].
    eexists. now rewrite append_assoc.
Qed.

(** The block of a sector: the six lines of figures, then the two
    rankings. *)
Lemma sector_block_projected (content sector_name : string)
  (data : SectorData.t) :
  Stats.projected data ->
  exists tops worsts,
    sector_block str_float content (sector_name, data)
    = Ok (content ++ Text.title sector_name ++ " Sector:" ++ Text.nl
          ++ "- Performance: "
          ++ Text.format_2f (SectorData.performance data) ++ "%" ++ Text.nl
          ++ "- Market Cap: $"
          ++ Text.format_2f
               (PyFloat.div (SectorData.market_cap data)
                  (PyFloat.of_decimal false 1 12))
          ++ "T" ++ Text.nl
          ++ "- Volume: " ++ Text.format_comma (SectorData.volume data)
          ++ Text.nl
          ++ "- Volatility: "
          ++ Text.format_2f (SectorData.volatility data) ++ "%" ++ Text.nl
          ++ "- Average P/E: "
          ++ Text.format_2f (SectorData.average_pe data) ++ Text.nl
          ++ Text.nl ++ "Top Performers:" ++ Text.nl ++ tops
          ++ Text.nl ++ "Worst Performers:" ++ Text.nl ++ worsts
          ++ Text.nl)%string.
Proof.
  intros (tops & worsts & Ht & Hw). unfold sector_block. rewrite Ht, Hw.
  match goal with
  | |- context [performer_lines str_float ?c (map project tops)] =>
      destruct (performer_lines_project c tops) as [ttext ->]
  end.
  cbn [bind].
  match goal with
  | |- context [performer_lines str_float ?c (map project worsts)] =>
      destruct (performer_lines_project c worsts) as [wtext ->]
  end.
  cbn [bind]. exists ttext, wtext. now rewrite !append_assoc.
Qed.

Lemma sector_blocks_projected (content : string)
  (sectors : list (string * SectorData.t)) :
  Forall (fun x => Stats.projected (snd x)) sectors ->
  exists text,
    sector_blocks str_float content sectors = Ok (content ++ text)%string
    /\ (text = EmptyString <-> sectors = []).
Proof.
  revert content. induction sectors as [|[name data] sectors IH];
    intros content Hall.
  - exists EmptyString. simpl. rewrite append_empty_r. tauto.
  - inversion Hall as [|? ? Hd Hrest]; subst. cbn [sector_blocks].
    destruct (sector_block_projected content name data Hd)
      as (tops & worsts & ->).
    cbn [bind].
    match goal with
    | |- context [sector_blocks str_float (content ++ ?b)%string sectors] =>
        destruct (IH (content ++ b)%string Hrest) as (text & -> & _);
        exists (b ++ text)%string
    end.
    split; [now rewrite append_assoc|].
    split; [|discriminate].
    destruct (Text.title name); discriminate.
Qed.

Lemma analyzed_is_projected (now sector : string)
  (stocks : list StockData.t) (data : SectorData.t) :
  _analyze_sector now sector stocks = Ok data -> Stats.projected data.
Proof.
  destruct stocks as [|s stocks]; [discriminate|].
  rewrite analyze_sector_summary. intros [= <-].
  eexists _, _. split; reflexivity.
Qed.

Lemma fetched_are_projected (now : string)
  (fetch : string -> result (list StockData.t)) :
  Forall (fun x => Stats.projected (snd x)) (fetch_sector_data now fetch).
Proof.
  rewrite fetch_sector_data_skips_errors.
  induction SECTORS as [|sector l IH]; simpl; [constructor|].
  apply Forall_app. split; [|exact IH].
  destruct (fetch sector) as [stocks|e]; cbn [bind]; [|constructor].
  destruct (_analyze_sector now sector stocks) as [data|e] eqn:E;
    constructor; [|constructor].
  exact (analyzed_is_projected now sector stocks data E).
Qed.

(** X14.  On what [fetch_sector_data] returns, whatever the fetches
    gave, [_prepare_analysis_content] raises nothing: the content is the
    header followed by the blocks of the sectors, and it is the bare
    header exactly when no sector was summarised. *)
Theorem prepare_analysis_content_of_fetched (now : string)
  (fetch : string -> result (list StockData.t)) :
  exists text,
    _prepare_analysis_content str_float (fetch_sector_data now fetch)
    = Ok (header ++ text)%string
    /\ (text = EmptyString <-> fetch_sector_data now fetch = []).
Proof.
  unfold _prepare_analysis_content.
  destruct (sector_blocks_projected header
              (sorted_sectors (fetch_sector_data now fetch)))
    as (text & Ht & Hiff).
  - eapply Permutation_Forall; [|apply fetched_are_projected].
    symmetry. apply sorted_perm.
  - exists text. split; [exact Ht|].
    rewrite Hiff. unfold sorted_sectors, Dict.items. split.
    + intros H.
      pose proof (sorted_perm by_performance true
                    (fetch_sector_data now fetch)) as P.
      rewrite H in P. symmetry. now apply Permutation_nil in P.
    + now intros ->.
Qed.

(** X15.  The block of a sector with a single record shows its
    volatility as nan: formatting NaN raises nothing. *)
Theorem single_record_sector_shows_nan (now sector_name : string)
  (s : StockData.t) :
  exists data content,
    _analyze_sector now sector_name [s] = Ok data
    /\ _prepare_analysis_content str_float [(sector_name, data)]
       = Ok content
    /\ Text.contains ("- Volatility: nan%" ++ Text.nl)%string content.
Proof.
  assert (Hd : exists data,
             _analyze_sector now sector_name [s] = Ok data
             /\ SectorData.volatility data = PyFloat.nan).
  { eexists. split; [apply analyze_sector_summary|].
    cbn [SectorData.volatility map]. apply std_single. }
  destruct Hd as (data & Hd & Hv). exists data.
  assert (Hp : Stats.projected data)
    by exact (analyzed_is_projected _ _ _ _ Hd).
  unfold _prepare_analysis_content.
  change (sorted_sectors [(sector_name, data)]) with [(sector_name, data)].
  cbn [sector_blocks].
  destruct (sector_block_projected header sector_name data Hp)
    as (tops & worsts & ->).
  cbn [bind]. rewrite Hv.
  eexists. split; [exact Hd|]. split; [reflexivity|].
  do 15 apply contains_skip. apply contains_here.
Qed.

End ReportText.

Section PromptFurther.
Import SectorAnalyzer.

(** X16.  On what [fetch_sector_data] returns,
    [generate_sector_analysis] raises nothing of its own, and the prompt
    it sends is the content of [_prepare_analysis_content] between two
    fixed texts: the figures of the sectors reach the model service; the
    result is the joined answer [run] gives to that prompt. *)
Theorem generate_sector_analysis_of_fetched (str_float : float -> string)
  (run : string -> list string) (now : string)
  (fetch : string -> result (list StockData.t)) :
  exists content,
    _prepare_analysis_content str_float (fetch_sector_data now fetch)
    = Ok content
    /\ Text.contains header content
    /\ generate_sector_analysis str_float run (fetch_sector_data now fetch)
       = Ok (String.concat EmptyString
               (run (prompt_before ++ content ++ prompt_after)%string)).
Proof.
  unfold generate_sector_analysis, _prepare_analysis_content.
  destruct (sector_blocks_projected str_float header
              (sorted_sectors (fetch_sector_data now fetch)))
    as (text & Ht & _).
  - eapply Permutation_Forall; [|apply fetched_are_projected].
    symmetry. apply sorted_perm.
  - rewrite Ht. cbn [bind]. eexists. split; [reflexivity|].
    split; [|reflexivity].
    exists EmptyString, text. reflexivity.
Qed.

End PromptFurther.

Section MoversText.
Import StockAnalyzer.
Variable str_float : float -> string.
Variable comma_float : float -> string.

Lemma mover_lines_of_movers (stocks : list StockData.t) :
  exists lines,
    mover_lines str_float comma_float (map mover stocks) = Ok lines
    /\ List.length lines = List.length stocks.
Proof.
  induction stocks as [|s stocks (lines & IH & Hlen)].
  - exists []. split; reflexivity.
  - cbn [map mover_lines].
    change (mover_line str_float comma_float (mover s))
      with (@Ok string
              ("  - " ++ StockData.symbol s ++ " (" ++ StockData.name s
               ++ "): " ++ Text.format_2f (StockData.change_percentage s)
               ++ "% on volume of "
               ++ Text.format_comma (StockData.volume s))%string).
    cbn [bind]. rewrite IH. cbn [bind].
    eexists. split; [reflexivity|]. simpl. now rewrite Hlen.
Qed.

(** X17.  On the [top_movers] of every category summary,
    [_format_top_movers] raises nothing and returns one line for each
    mover, the lines joined by a newline. *)
Theorem format_top_movers_of_summary (stocks : list StockData.t) :
  exists r,
    _prepare_category_data stocks = Ok r
    /\ forall movers,
         Dict.get r "top_movers" = Some (Records movers) ->
         exists lines,
           _format_top_movers str_float comma_float movers
           = Ok (String.concat Text.nl lines)
           /\ List.length lines = List.length movers.
Proof.
  destruct stocks as [|s stocks].
  - eexists. split; [reflexivity|]. intros movers H. discriminate H.
  - eexists. split; [apply prepare_category_data_cons|].
    intros movers H.
    assert (E : movers
                = map mover
                    (Py.slice_to 5
                       (Py.sorted abs_change true (s :: stocks))))
      by (injection H as <-; reflexivity).
    rewrite E. unfold _format_top_movers.
    destruct (mover_lines_of_movers
                (Py.slice_to 5 (Py.sorted abs_change true (s :: stocks))))
      as (lines & -> & Hlen).
    cbn [bind]. exists lines. split; [reflexivity|].
    now rewrite length_map.
Qed.

End MoversText.
